(** * casdoor, controllers/account.go: the account controller

    A shallow embedding of the request handlers of [controllers/account.go]
    ([Signup], [Logout], [GetUserinfo], [GetHumanCheck]) together with the
    properties of the signup and session workflow.

    Conventions.
    - A Go [string] is a [string]; a Go [int] is a [Z] kept in the signed
      64-bit range, with the wrap-around of [+] written out ([wrap64]).
    - A Go pointer that may be [nil] is an [option]; reading a field through
      a [nil] pointer is a run-time panic ([Panicked]).
    - A handler is a function from the request context and the state of the
      server to an [Outcome]; every write a handler performs is a field of
      [World].
    - Functions of the packages [object] and [util] and of the controller
      base are not part of this file of the repository.  Those whose result
      is opaque to the handlers are fields of the class [Collaborators];
      the stores the handlers update are modelled explicitly. *)

From Stdlib Require Import ZArith Ascii String List Bool Lia.
From stdpp Require Import base option gmap strings list.

Local Open Scope string_scope.
Local Open Scope Z_scope.

(* ===================================================================== *)
(** * Go's [strconv] on decimal integers *)
(* ===================================================================== *)

Module strconv.

Definition MaxInt : Z := 9223372036854775807.
Definition MinInt : Z := -9223372036854775808.

Definition in_int (z : Z) : bool := (MinInt <=? z) && (z <=? MaxInt).

(** Two's-complement wrap-around of a 64-bit signed integer. *)
Definition wrap64 (z : Z) : Z := (z + 2 ^ 63) mod 2 ^ 64 - 2 ^ 63.

(** Addition on Go's [int]. *)
Definition add (a b : Z) : Z := wrap64 (a + b).

Definition digit_char (d : Z) : ascii := ascii_of_nat (Z.to_nat (48 + d)).

Definition digit_of (c : ascii) : option Z :=
  let n := Z.of_nat (nat_of_ascii c) in
  if (48 <=? n) && (n <=? 57) then Some (n - 48) else None.

(** [formatBits] in base ten: digits are produced from the least
    significant one, in front of what is already written. *)
Fixpoint format_digits (fuel : nat) (u : Z) (acc : string) : string :=
  match fuel with
  | O => acc
  | S fuel' =>
      let acc' := String (digit_char (u mod 10)) acc in
      if u <? 10 then acc' else format_digits fuel' (u / 10) acc'
  end.

(** Twenty digits are enough for every value below [2 ^ 64]. *)
Definition FormatUint (u : Z) : string := format_digits 20 u "".

Definition FormatInt (i : Z) : string :=
  if i <? 0 then String "-" (FormatUint (- i)) else FormatUint i.

(** [strconv.Itoa(i)] is [FormatInt(int64(i), 10)]. *)
Definition Itoa (i : Z) : string := FormatInt i.

Fixpoint parse_digits (acc : Z) (s : string) : option Z :=
  match s with
  | EmptyString => Some acc
  | String c r =>
      match digit_of c with
      | Some d => parse_digits (acc * 10 + d) r
      | None => None
      end
  end.

(** [strconv.Atoi]: an optional sign, at least one decimal digit, and a
    value that fits [int]; [None] stands for the returned error. *)
Definition Atoi (s : string) : option Z :=
  match s with
  | EmptyString => None
  | String c r =>
      let neg := Ascii.eqb c "-" in
      let body := if neg || Ascii.eqb c "+" then r else s in
      match body with
      | EmptyString => None
      | _ =>
          match parse_digits 0 body with
          | Some n =>
              let v := if neg then - n else n in
              if in_int v then Some v else None
          | None => None
          end
      end
  end.

End strconv.

(* ===================================================================== *)
(** * Go's [strings.Split] for a one-character separator *)
(* ===================================================================== *)

Fixpoint Split (s : string) (sep : ascii) : list string :=
  match s with
  | EmptyString => [""]
  | String c r =>
      if Ascii.eqb c sep then "" :: Split r sep
      else match Split r sep with
           | t :: ts => String c t :: ts
           | [] => [String c ""]
           end
  end.

(* ===================================================================== *)
(** * The data of the controller *)
(* ===================================================================== *)

(** [interface{}] values that the handlers put in a response. *)
Inductive any : Type :=
| anyNil
| anyString (s : string).

Module RequestForm.
Record t : Type := mk {
  Type_ : string;
  Organization : string;
  Username : string;
  Password : string;
  Name : string;
  FirstName : string;
  LastName : string;
  Email : string;
  Phone : string;
  Affiliation : string;
  IdCard : string;
  Region : string;
  Application : string;
  Provider : string;
  Code : string;
  State : string;
  RedirectUri : string;
  Method : string;
  EmailCode : string;
  PhoneCode : string;
  PhonePrefix : string;
  AutoSignin : bool;
  RelayState : string;
  SamlRequest : string;
  SamlResponse : string
}.
End RequestForm.

Module Response.
Record t : Type := mk {
  Status : string;
  Msg : string;
  Sub : string;
  Name : string;
  Data : any;
  Data2 : any
}.
End Response.

Module HumanCheck.
Record t : Type := mk {
  Type_ : string;
  AppKey : string;
  Scene : string;
  CaptchaId : string;
  CaptchaImage : any
}.
End HumanCheck.

(** The fields of [object.User] that [Signup] writes. *)
Module User.
Record t : Type := mk {
  Owner : string;
  Name : string;
  CreatedTime : string;
  Id : string;
  Type_ : string;
  Password : string;
  DisplayName : string;
  FirstName : string;
  LastName : string;
  Avatar : string;
  Email : string;
  Phone : string;
  Address : list string;
  Affiliation : string;
  Tag : string;
  IdCard : string;
  Region : string;
  Score : Z;
  IsAdmin : bool;
  IsGlobalAdmin : bool;
  IsForbidden : bool;
  IsDeleted : bool;
  SignupApplication : string;
  Properties : gmap string string;
  Karma : Z
}.
End User.

(** The fields and methods of [object.Application] that the handlers read.
    The methods [IsSignupItemVisible], [GetSignupItemRule] and
    [HasPromptPage] are taken as they are, as fields. *)
Module Application.
Record t : Type := mk {
  Name : string;
  Organization : string;
  EnableSignUp : bool;
  HomepageUrl : string;
  IsSignupItemVisible : string -> bool;
  GetSignupItemRule : string -> string;
  HasPromptPage : bool
}.
End Application.

Module Organization.
Record t : Type := mk {
  Name : string;
  DefaultAvatar : string;
  Tags : list string
}.
End Organization.

Module Provider.
Record t : Type := mk {
  Name : string;
  Type_ : string
}.
End Provider.

(** [object.Record], the audit record: the two fields [Signup] sets and
    what [NewRecord] took from the request. *)
Module AuditRecord.
Record t : Type := mk {
  Request : string;
  Organization : string;
  User : string
}.
End AuditRecord.

Module Userinfo.
Record t : Type := mk {
  Sub : string;
  Iss : string;
  Aud : string;
  Claims : list (string * string)
}.
End Userinfo.

(** What [c.Data["json"]] holds when [ServeJSON] writes it. *)
Inductive Payload : Type :=
| PResponse (r : Response.t)
| PHumanCheck (h : HumanCheck.t)
| PUserinfo (u : option Userinfo.t).

(** The request a handler serves ([c.Ctx]). *)
Record Ctx : Type := mkCtx {
  RequestBody : string;
  Host : string
}.

(** The data of a session other than the user name: the application the
    session belongs to and the OIDC scope and audience. *)
Record SessionData : Type := mkSessionData {
  sd_application : option Application.t;
  sd_scope : string;
  sd_aud : string
}.

(** Everything a handler can change. *)
Record World : Type := mkWorld {
  session_username : string;
  session_data : option SessionData;
  users : list User.t;                 (* the user table, newest first *)
  original_db : list User.t;           (* the replica, newest first *)
  verification : gmap string string;   (* outstanding code of a target *)
  records : list AuditRecord.t;        (* the audit log, oldest first *)
  logs : list string;                  (* lines written by LogInfo *)
  Data_json : option Payload;          (* c.Data["json"] *)
  output : list (option Payload)       (* what ServeJSON has written *)
}.

Inductive Outcome : Type :=
| Returned (w : World)
| Panicked (w : World).


(* ===================================================================== *)
(** * Field updates *)
(* ===================================================================== *)

Definition set_session_username (v : string) (w : World) : World :=
  mkWorld v (session_data w) (users w) (original_db w) (verification w)
          (records w) (logs w) (Data_json w) (output w).

Definition set_session_data (v : option SessionData) (w : World) : World :=
  mkWorld (session_username w) v (users w) (original_db w) (verification w)
          (records w) (logs w) (Data_json w) (output w).

Definition set_users (v : list User.t) (w : World) : World :=
  mkWorld (session_username w) (session_data w) v (original_db w)
          (verification w) (records w) (logs w) (Data_json w) (output w).

Definition set_original_db (v : list User.t) (w : World) : World :=
  mkWorld (session_username w) (session_data w) (users w) v (verification w)
          (records w) (logs w) (Data_json w) (output w).

Definition set_verification (v : gmap string string) (w : World) : World :=
  mkWorld (session_username w) (session_data w) (users w) (original_db w) v
          (records w) (logs w) (Data_json w) (output w).

Definition set_records (v : list AuditRecord.t) (w : World) : World :=
  mkWorld (session_username w) (session_data w) (users w) (original_db w)
          (verification w) v (logs w) (Data_json w) (output w).

Definition set_logs (v : list string) (w : World) : World :=
  mkWorld (session_username w) (session_data w) (users w) (original_db w)
          (verification w) (records w) v (Data_json w) (output w).

Definition set_Data_json (v : option Payload) (w : World) : World :=
  mkWorld (session_username w) (session_data w) (users w) (original_db w)
          (verification w) (records w) (logs w) v (output w).

Definition set_output (v : list (option Payload)) (w : World) : World :=
  mkWorld (session_username w) (session_data w) (users w) (original_db w)
          (verification w) (records w) (logs w) (Data_json w) v.

Definition User_set_Tag (v : string) (u : User.t) : User.t :=
  let 'User.mk a1 a2 a3 a4 a5 a6 a7 a8 a9 a10 a11 a12 a13 a14 _ a16 a17 a18
               a19 a20 a21 a22 a23 a24 a25 := u in
  User.mk a1 a2 a3 a4 a5 a6 a7 a8 a9 a10 a11 a12 a13 a14 v a16 a17 a18
          a19 a20 a21 a22 a23 a24 a25.

Definition User_set_DisplayName (v : string) (u : User.t) : User.t :=
  let 'User.mk a1 a2 a3 a4 a5 a6 _ a8 a9 a10 a11 a12 a13 a14 a15 a16 a17 a18
               a19 a20 a21 a22 a23 a24 a25 := u in
  User.mk a1 a2 a3 a4 a5 a6 v a8 a9 a10 a11 a12 a13 a14 a15 a16 a17 a18
          a19 a20 a21 a22 a23 a24 a25.

Definition User_set_FirstName (v : string) (u : User.t) : User.t :=
  let 'User.mk a1 a2 a3 a4 a5 a6 a7 _ a9 a10 a11 a12 a13 a14 a15 a16 a17 a18
               a19 a20 a21 a22 a23 a24 a25 := u in
  User.mk a1 a2 a3 a4 a5 a6 a7 v a9 a10 a11 a12 a13 a14 a15 a16 a17 a18
          a19 a20 a21 a22 a23 a24 a25.

Definition User_set_LastName (v : string) (u : User.t) : User.t :=
  let 'User.mk a1 a2 a3 a4 a5 a6 a7 a8 _ a10 a11 a12 a13 a14 a15 a16 a17 a18
               a19 a20 a21 a22 a23 a24 a25 := u in
  User.mk a1 a2 a3 a4 a5 a6 a7 a8 v a10 a11 a12 a13 a14 a15 a16 a17 a18
          a19 a20 a21 a22 a23 a24 a25.

(* ===================================================================== *)
(** * Collaborators *)
(* ===================================================================== *)

(** Functions of [encoding/json], [object], [util] and the controller base
    whose results the handlers only pass on.  A result of type [option]
    is a pointer that may be [nil], or an error for [json_Unmarshal]; the
    pair returned by [GetUserInfo] is Go's [(resp, err)], the error being
    given by its message. *)
Class Collaborators : Type := {
  json_Unmarshal : string -> option RequestForm.t;
  GetApplication : string -> option Application.t;
  GetOrganization : string -> option Organization.t;
  CheckUserSignup :
    list User.t -> Application.t -> option Organization.t ->
    string -> string -> string -> string -> string -> string -> string ->
    string -> string;
  CheckVerificationCode : gmap string string -> string -> string -> string;
  GenerateId : World -> string;
  GetCurrentTime : World -> string;
  getInitScore : Z;
  User_GetId : User.t -> string;
  StructToJson : User.t -> string;
  NewRecord : Ctx -> AuditRecord.t;
  GetUserInfo :
    list User.t -> string -> string -> string -> string ->
    option Userinfo.t * option string;
  GetDefaultHumanCheckProvider : option Provider.t;
  GetCaptcha : World -> string * any;
  NotSignedIn : string
}.

(* ===================================================================== *)
(** * The session, the response and the stores *)
(* ===================================================================== *)

(** Modelled from the spec: the SessionManager of the controller base
    ([GetSessionUsername], [SetSessionUsername], [SetSessionData],
    [GetSessionApplication], [GetSessionOidc]), which holds the current
    user name, the current application context and the OIDC scope and
    audience of one caller. *)
Definition GetSessionUsername (c : World) : string := session_username c.

Definition SetSessionUsername (user : string) (c : World) : World :=
  set_session_username user c.

Definition SetSessionData (s : option SessionData) (c : World) : World :=
  set_session_data s c.

Definition GetSessionApplication (c : World) : option Application.t :=
  match session_data c with
  | Some d => sd_application d
  | None => None
  end.

Definition GetSessionOidc (c : World) : string * string :=
  match session_data c with
  | Some d => (sd_scope d, sd_aud d)
  | None => ("", "")
  end.

(** Modelled from the spec: [ServeJSON] of the web framework writes what
    [c.Data["json"]] holds to the response. *)
Definition ServeJSON (c : World) : World :=
  set_output (output c ++ [Data_json c]) c.

(** Modelled from the spec: [ResponseOk] and [ResponseError] of the
    controller base, which serve (status=ok, primary payload, optional
    secondary payload) and (status=error, message). *)
Definition fill_data (resp : Response.t) (data : list any) : Response.t :=
  match data with
  | [d1] =>
      Response.mk (Response.Status resp) (Response.Msg resp)
                  (Response.Sub resp) (Response.Name resp) d1
                  (Response.Data2 resp)
  | [d1; d2] =>
      Response.mk (Response.Status resp) (Response.Msg resp)
                  (Response.Sub resp) (Response.Name resp) d1 d2
  | _ => resp
  end.

Definition ResponseOk (data : list any) (c : World) : World :=
  let resp := Response.mk "ok" "" "" "" anyNil anyNil in
  ServeJSON (set_Data_json (Some (PResponse (fill_data resp data))) c).

Definition ResponseError (error : string) (data : list any) (c : World)
  : World :=
  let resp := Response.mk "error" error "" "" anyNil anyNil in
  ServeJSON (set_Data_json (Some (PResponse (fill_data resp data))) c).

(** Modelled from the spec: [RequireSignedIn] of the controller base; with
    no active session it answers with the error [NotSignedIn]. *)
Definition RequireSignedIn `{Collaborators} (c : World)
  : string * bool * World :=
  let userId := GetSessionUsername c in
  if String.eqb userId "" then ("", false, ResponseError NotSignedIn [] c)
  else (userId, true, c).

(** Modelled from the spec: [object.AddUser], the create-if-absent of the
    UserStore; [false] means a record with the same (owner, name) exists. *)
Definition same_key (u v : User.t) : bool :=
  String.eqb (User.Owner u) (User.Owner v)
  && String.eqb (User.Name u) (User.Name v).

Definition AddUser (user : User.t) (c : World) : bool * World :=
  if existsb (same_key user) (users c) then (false, c)
  else (true, set_users (user :: users c) c).

(** Modelled from the spec: [object.GetLastUser], the most recently
    created user of an organization, [nil] when it has none. *)
Definition GetLastUser (owner : string) (c : World) : option User.t :=
  find (fun u => String.eqb (User.Owner u) owner) (users c).

(** Modelled from the spec: [object.AddUserToOriginalDatabase], the
    replication of the created identity to the secondary store. *)
Definition AddUserToOriginalDatabase (user : User.t) (c : World) : World :=
  set_original_db (user :: original_db c) c.

(** Modelled from the spec: [object.DisableVerificationCode], which removes
    the outstanding code of a target and does nothing for the empty
    target. *)
Definition DisableVerificationCode (dest : string) (c : World) : World :=
  if String.eqb dest "" then c
  else set_verification (delete dest (verification c)) c.

(** Modelled from the spec: [object.AddRecord], the AuditSink.  [Signup]
    calls it in a goroutine of its own; the record is taken as written. *)
Definition AddRecord (record : AuditRecord.t) (c : World) : World :=
  set_records (records c ++ [record]) c.

(** Modelled from the spec: [util.LogInfo], which writes one line. *)
Definition LogInfo (line : string) (c : World) : World :=
  set_logs (logs c ++ [line]) c.

(** Modelled from the spec: [util.ParseInt], which parses an identifier as
    an integer; [None] is the panic on an identifier that is none. *)
Definition ParseInt (s : string) : option Z := strconv.Atoi s.

(* ===================================================================== *)
(** * The handlers of controllers/account.go *)
(* ===================================================================== *)

Section Handlers.

Context `{Collaborators}.

(** Lines 139-146: the identifier under the rule "Incremental"; [None] is
    the panic of [util.ParseInt]. *)
Definition incrementalId (form : RequestForm.t) (c : World)
  : option string :=
  let lastUser := GetLastUser (RequestForm.Organization form) c in
  let lastIdInt :=
    match lastUser with
    | Some lastUser => ParseInt (User.Id lastUser)
    | None => Some (-1)
    end in
  match lastIdInt with
  | Some lastIdInt => Some (strconv.Itoa (strconv.add lastIdInt 1))
  | None => None
  end.

(** Lines 154-192: the record of the new user. *)
Definition newUser (form : RequestForm.t) (application : Application.t)
    (organization : Organization.t) (username id : string) (c : World)
  : User.t :=
  let user :=
    {| User.Owner := RequestForm.Organization form;
       User.Name := username;
       User.CreatedTime := GetCurrentTime c;
       User.Id := id;
       User.Type_ := "normal-user";
       User.Password := RequestForm.Password form;
       User.DisplayName := RequestForm.Name form;
       User.FirstName := "";
       User.LastName := "";
       User.Avatar := Organization.DefaultAvatar organization;
       User.Email := RequestForm.Email form;
       User.Phone := RequestForm.Phone form;
       User.Address := [];
       User.Affiliation := RequestForm.Affiliation form;
       User.Tag := "";
       User.IdCard := RequestForm.IdCard form;
       User.Region := RequestForm.Region form;
       User.Score := getInitScore;
       User.IsAdmin := false;
       User.IsGlobalAdmin := false;
       User.IsForbidden := false;
       User.IsDeleted := false;
       User.SignupApplication := Application.Name application;
       User.Properties := ∅;
       User.Karma := 0 |} in
  let user :=
    match Organization.Tags organization with
    | tags0 :: _ =>
        match Split tags0 "|" with
        | token0 :: _ => User_set_Tag token0 user
        | [] => user
        end
    | [] => user
    end in
  if String.eqb (Application.GetSignupItemRule application "Display name")
                "First, last"
  then
    if negb (String.eqb (RequestForm.FirstName form) "")
       || negb (String.eqb (RequestForm.LastName form) "")
    then
      User_set_LastName (RequestForm.LastName form)
        (User_set_FirstName (RequestForm.FirstName form)
           (User_set_DisplayName
              (RequestForm.FirstName form +:+ " "
               +:+ RequestForm.LastName form) user))
    else user
  else user.

(** Lines 194-218: the new user is stored, then replicated, signed in,
    its codes are disabled and the signup is recorded. *)
Definition Signup_store (ctx : Ctx) (form : RequestForm.t)
    (application : Application.t) (checkPhone : string) (user : User.t)
    (c : World) : Outcome :=
  let '(affected, c) := AddUser user c in
  if negb affected then
    Returned
      (ResponseError
         ("Failed to create user, user information is invalid: "
          +:+ StructToJson user) [] c)
  else
    let c := AddUserToOriginalDatabase user c in
    let c :=
      if Application.HasPromptPage application
      then SetSessionUsername (User_GetId user) c
      else c in
    let c := DisableVerificationCode (RequestForm.Email form) c in
    let c := DisableVerificationCode checkPhone c in
    let record := NewRecord ctx in
    let record :=
      AuditRecord.mk (AuditRecord.Request record)
                     (Application.Organization application)
                     (User.Name user) in
    let c := AddRecord record c in
    let userId := User.Owner user +:+ "/" +:+ User.Name user in
    let c :=
      LogInfo ("API: [" +:+ userId +:+ "] is signed up as new user") c in
    Returned (ResponseOk [anyString userId] c).

(** Lines 137-192: the identifier, the user name and the record. *)
Definition Signup_create (ctx : Ctx) (form : RequestForm.t)
    (application : Application.t) (organization : option Organization.t)
    (checkPhone : string) (c : World) : Outcome :=
  let id := Some (GenerateId c) in
  let id :=
    if String.eqb (Application.GetSignupItemRule application "ID")
                  "Incremental"
    then incrementalId form c
    else id in
  match id with
  | None => Panicked c
  | Some id =>
      let username := RequestForm.Username form in
      let username :=
        if negb (Application.IsSignupItemVisible application "Username")
        then id else username in
      match organization with
      | None => Panicked c
      | Some organization =>
          let user := newUser form application organization username id c in
          Signup_store ctx form application checkPhone user c
      end
  end.

(** Lines 94-135: the checks of the request.  A verification that is
    skipped has the empty result, that of a code that is right. *)
Definition Signup (ctx : Ctx) (c : World) : Outcome :=
  if negb (String.eqb (GetSessionUsername c) "") then
    Returned
      (ResponseError "Please sign out first before signing up"
                     [anyString (GetSessionUsername c)] c)
  else
  match json_Unmarshal (RequestBody ctx) with
  | None => Panicked c
  | Some form =>
  match GetApplication ("admin/" +:+ RequestForm.Application form) with
  | None => Panicked c
  | Some application =>
  if negb (Application.EnableSignUp application) then
    Returned
      (ResponseError "The application does not allow to sign up new account"
                     [] c)
  else
  let organization :=
    GetOrganization ("admin" +:+ "/" +:+ RequestForm.Organization form) in
  let msg :=
    CheckUserSignup (users c) application organization
      (RequestForm.Username form) (RequestForm.Password form)
      (RequestForm.Name form) (RequestForm.FirstName form)
      (RequestForm.LastName form) (RequestForm.Email form)
      (RequestForm.Phone form) (RequestForm.Affiliation form) in
  if negb (String.eqb msg "") then Returned (ResponseError msg [] c)
  else
  let checkEmail :=
    Application.IsSignupItemVisible application "Email"
    && negb (String.eqb (RequestForm.Email form) "") in
  let checkResult :=
    if checkEmail
    then CheckVerificationCode (verification c) (RequestForm.Email form)
                               (RequestForm.EmailCode form)
    else "" in
  if negb (String.eqb checkResult "") then
    Returned (ResponseError ("Email: " +:+ checkResult) [] c)
  else
  let checkPhone :=
    if Application.IsSignupItemVisible application "Phone"
       && negb (String.eqb (RequestForm.Phone form) "")
    then "+" +:+ RequestForm.PhonePrefix form +:+ RequestForm.Phone form
    else "" in
  let checkResult :=
    if Application.IsSignupItemVisible application "Phone"
       && negb (String.eqb (RequestForm.Phone form) "")
    then CheckVerificationCode (verification c) checkPhone
                               (RequestForm.PhoneCode form)
    else "" in
  if negb (String.eqb checkResult "") then
    Returned (ResponseError ("Phone: " +:+ checkResult) [] c)
  else
  Signup_create ctx form application organization checkPhone c
  end
  end.

(** Lines 227-240. *)
Definition Logout (ctx : Ctx) (c : World) : Outcome :=
  let user := GetSessionUsername c in
  let c := LogInfo ("API: [" +:+ user +:+ "] logged out") c in
  let application := GetSessionApplication c in
  let c := SetSessionUsername "" c in
  let c := SetSessionData None c in
  match application with
  | None => Returned (ResponseOk [anyString user] c)
  | Some application =>
      if String.eqb (Application.Name application) "app-built-in"
         || String.eqb (Application.HomepageUrl application) ""
      then Returned (ResponseOk [anyString user] c)
      else
        Returned
          (ResponseOk
             [anyString user;
              anyString (Application.HomepageUrl application)] c)
  end.

(** Lines 278-291.  After [ResponseError] the handler does not return. *)
Definition GetUserinfo (ctx : Ctx) (c : World) : Outcome :=
  let '(userId, ok, c) := RequireSignedIn c in
  if negb ok then Returned c
  else
    let '(scope, aud) := GetSessionOidc c in
    let host := Host ctx in
    let '(resp, err) := GetUserInfo (users c) userId scope aud host in
    let c :=
      match err with
      | Some err => ResponseError err [] c
      | None => c
      end in
    let c := set_Data_json (Some (PUserinfo resp)) c in
    Returned (ServeJSON c).

(** Lines 297-309. *)
Definition GetHumanCheck (ctx : Ctx) (c : World) : Outcome :=
  let c :=
    set_Data_json
      (Some (PHumanCheck (HumanCheck.mk "none" "" "" "" anyNil))) c in
  let provider := GetDefaultHumanCheckProvider in
  match provider with
  | None =>
      let '(id, img) := GetCaptcha c in
      let c :=
        set_Data_json
          (Some (PHumanCheck (HumanCheck.mk "captcha" "" "" id img))) c in
      Returned (ServeJSON c)
  | Some _ => Returned (ServeJSON c)
  end.

End Handlers.

(* ===================================================================== *)
(** * GetAccount *)
(* ===================================================================== *)

(** The functions of [object] that [GetAccount] calls; [GetUser] reads the
    user table. *)
Class AccountCollaborators : Type := {
  GetUser : list User.t -> string -> option User.t;
  GetOrganizationByUser : User.t -> option Organization.t;
  GetMaskedOrganization : option Organization.t -> option Organization.t
}.

(** The [Response] of [GetAccount], whose [Data] is the user and whose
    [Data2] is the organization. *)
Module AccountResponse.
Record t : Type := mk {
  Status : string;
  Msg : string;
  Sub : string;
  Name : string;
  Data : User.t;
  Data2 : option Organization.t
}.
End AccountResponse.

(** [GetAccount] either serves an account ([c.Data["json"] = resp] and
    [ServeJSON], lines 268-269) or returns after the error of an earlier
    line. *)
Inductive AccountOutcome : Type :=
| Served (resp : AccountResponse.t) (c : World)
| Refused (c : World).

Section AccountHandler.

Context `{Collaborators} `{AccountCollaborators}.

(** Lines 248-270. *)
Definition GetAccount (ctx : Ctx) (c : World) : AccountOutcome :=
  let '(userId, ok, c) := RequireSignedIn c in
  if negb ok then Refused c
  else
    match GetUser (users c) userId with
    | None =>
        Refused
          (ResponseError ("The user: " +:+ userId +:+ " doesn't exist") [] c)
    | Some user =>
        let organization :=
          GetMaskedOrganization (GetOrganizationByUser user) in
        let resp :=
          AccountResponse.mk "ok" "" (User.Id user) (User.Name user) user
                             organization in
        Served resp c
    end.

End AccountHandler.

(* ===================================================================== *)
(** * A concrete deployment, for running the handlers *)
(* ===================================================================== *)

Module Demo.

Definition visible_all (item : string) : bool := true.
Definition visible_none (item : string) : bool := false.

Definition rules_a (item : string) : string :=
  if String.eqb item "ID" then "Incremental"
  else if String.eqb item "Display name" then "First, last"
  else "".

Definition rules_none (item : string) : string := "".

(** Every field is shown, identifiers are incremental, display names are
    composed. *)
Definition app_a : Application.t :=
  Application.mk "app-a" "org" true "https://a.example.org"
                 visible_all rules_a false.

(** No field is shown, identifiers are random, a prompt page follows. *)
Definition app_b : Application.t :=
  Application.mk "app-b" "org" true "" visible_none rules_none true.

Definition app_closed : Application.t :=
  Application.mk "app-closed" "org" false "" visible_all rules_a false.

Definition org : Organization.t :=
  Organization.mk "org" "https://cdn.example.org/avatar.png"
                  ["staff|guest"; "other"].

Definition form (application username name first last email phone : string)
  : RequestForm.t :=
  RequestForm.mk "signup" "org" username "secret" name first last email phone
                 "" "" "" application "" "" "" "" "" "4242" "2121" "33"
                 false "" "" "".

Definition unmarshal (body : string) : option RequestForm.t :=
  if String.eqb body "ada" then
    Some (form "app-a" "ada" "Countess" "Ada" "Lovelace" "" "")
  else if String.eqb body "bob" then
    Some (form "app-a" "bob" "Bobby" "" "" "" "")
  else if String.eqb body "eve" then
    Some (form "app-b" "eve" "Eve" "" "" "eve@example.org" "")
  else if String.eqb body "kim" then
    Some (form "app-a" "kim" "Kim" "" "" "kim@example.org" "612345678")
  else if String.eqb body "ghost" then
    Some (form "ghost" "zed" "Zed" "" "" "" "")
  else if String.eqb body "closed" then
    Some (form "app-closed" "zed" "Zed" "" "" "" "")
  else None.

Definition application_of (id : string) : option Application.t :=
  if String.eqb id "admin/app-a" then Some app_a
  else if String.eqb id "admin/app-b" then Some app_b
  else if String.eqb id "admin/app-closed" then Some app_closed
  else None.

Definition organization_of (id : string) : option Organization.t :=
  if String.eqb id "admin/org" then Some org else None.

Definition check_signup (us : list User.t) (a : Application.t)
    (o : option Organization.t)
    (username password name first last email phone affiliation : string)
  : string :=
  if String.eqb username "" then "Empty username." else "".

Definition check_code (ledger : gmap string string) (dest code : string)
  : string :=
  match ledger !! dest with
  | Some sent => if String.eqb sent code then "" else "Wrong code!"
  | None => "Code has not been sent yet!"
  end.

Definition userinfo (us : list User.t) (userId scope aud host : string)
  : option Userinfo.t * option string :=
  if existsb (fun u => String.eqb (User.Owner u +:+ "/" +:+ User.Name u)
                                  userId) us
  then (Some (Userinfo.mk userId host aud []), None)
  else (None, Some "the user does not exist").

Definition collaborators (provider : option Provider.t)
  : Collaborators := {|
  json_Unmarshal := unmarshal;
  GetApplication := application_of;
  GetOrganization := organization_of;
  CheckUserSignup := check_signup;
  CheckVerificationCode := check_code;
  GenerateId := fun _ => "8b2c7f7e-0d3a-4b52-9d0e-5f1c6a7e9b10";
  GetCurrentTime := fun _ => "2021-12-01T10:00:00Z";
  getInitScore := 2000;
  User_GetId := fun u => User.Owner u +:+ "/" +:+ User.Name u;
  StructToJson := fun u => User.Name u;
  NewRecord := fun ctx => AuditRecord.mk (RequestBody ctx) "" "";
  GetUserInfo := userinfo;
  GetDefaultHumanCheckProvider := provider;
  GetCaptcha := fun _ => ("k3Xq", anyString "iVBORw0KGgo=");
  NotSignedIn := "Please sign in first"
|}.

Definition plain : Collaborators := collaborators None.

Definition aliyun : Provider.t := Provider.mk "captcha-1" "Aliyun Captcha".

Definition with_provider : Collaborators := collaborators (Some aliyun).

Definition request (body : string) : Ctx := mkCtx body "door.example.org".

(** A server nobody is signed in to, with the given users and codes. *)
Definition server (us : list User.t) (codes : gmap string string) : World :=
  mkWorld "" None us [] codes [] [] None [].

Definition signed_in (name : string) (a : option Application.t) : World :=
  mkWorld name (Some (mkSessionData a "openid" "client-1")) [] [] ∅ [] []
          None [].

(** A user of "org" whose identifier is [id]. *)
Definition member (name id : string) : User.t :=
  User.mk "org" name "2021-11-30T09:00:00Z" id "normal-user" "" name "" ""
          "" "" "" [] "" "" "" "" 0 false false false false "app-a" ∅ 0.

End Demo.


(* ===================================================================== *)
(** * The vocabulary of the properties *)
(* ===================================================================== *)

Definition error_response (msg : string) (data : list any) : Payload :=
  PResponse (fill_data (Response.mk "error" msg "" "" anyNil anyNil) data).

Definition ok_response (data : list any) : Payload :=
  PResponse (fill_data (Response.mk "ok" "" "" "" anyNil anyNil) data).

(** From [c] to [c'] one payload was served and nothing else happened: the
    session, the user table, the replica, the verification codes, the
    audit log and the log lines are those of [c]. *)
Definition answered_only (c c' : World) (p : Payload) : Prop :=
  session_username c' = session_username c /\
  session_data c' = session_data c /\
  users c' = users c /\
  original_db c' = original_db c /\
  verification c' = verification c /\
  records c' = records c /\
  logs c' = logs c /\
  output c' = (output c ++ [Some p])%list.

(** From [c] to [c'] the user table gained the record [u]. *)
Definition created_user (c c' : World) (u : User.t) : Prop :=
  users c' = u :: users c.

(** The session has no application, or the built-in one, or one without a
    homepage. *)
Definition no_homepage (application : option Application.t) : Prop :=
  match application with
  | None => True
  | Some a =>
      Application.Name a = "app-built-in" \/ Application.HomepageUrl a = ""
  end.

(** The value of the last identifier of an organization: [-1] when the
    organization has no user. *)
Definition last_value (owner : string) (c : World) (last : Z) : Prop :=
  match GetLastUser owner c with
  | None => last = -1
  | Some lastUser => strconv.Atoi (User.Id lastUser) = Some last
  end.

Section Rejections.

Context `{Collaborators}.

(** The request of [ctx] reaches the application [application] with the
    form [form]: nobody is signed in, the body is read and the application
    exists. *)
Definition resolves (ctx : Ctx) (c : World) (form : RequestForm.t)
    (application : Application.t) : Prop :=
  GetSessionUsername c = "" /\
  json_Unmarshal (RequestBody ctx) = Some form /\
  GetApplication ("admin/" +:+ RequestForm.Application form)
  = Some application.

Definition validation (c : World) (form : RequestForm.t)
    (application : Application.t) : string :=
  CheckUserSignup (users c) application
    (GetOrganization ("admin/" +:+ RequestForm.Organization form))
    (RequestForm.Username form) (RequestForm.Password form)
    (RequestForm.Name form) (RequestForm.FirstName form)
    (RequestForm.LastName form) (RequestForm.Email form)
    (RequestForm.Phone form) (RequestForm.Affiliation form).

Definition email_result (c : World) (form : RequestForm.t) : string :=
  CheckVerificationCode (verification c) (RequestForm.Email form)
                        (RequestForm.EmailCode form).

Definition phone_target (form : RequestForm.t) : string :=
  "+" +:+ RequestForm.PhonePrefix form +:+ RequestForm.Phone form.

Definition phone_result (c : World) (form : RequestForm.t) : string :=
  CheckVerificationCode (verification c) (phone_target form)
                        (RequestForm.PhoneCode form).

Definition email_checked (form : RequestForm.t)
    (application : Application.t) : Prop :=
  Application.IsSignupItemVisible application "Email" = true /\
  RequestForm.Email form <> "".

Definition phone_checked (form : RequestForm.t)
    (application : Application.t) : Prop :=
  Application.IsSignupItemVisible application "Phone" = true /\
  RequestForm.Phone form <> "".

(** The checks a signup request can fail before anything is stored, each
    with the message and the data of its error. *)
Inductive Rejection (ctx : Ctx) (c : World) : string -> list any -> Prop :=
| AlreadySignedIn :
    GetSessionUsername c <> "" ->
    Rejection ctx c "Please sign out first before signing up"
              [anyString (GetSessionUsername c)]
| SignupDisabled form application :
    resolves ctx c form application ->
    Application.EnableSignUp application = false ->
    Rejection ctx c "The application does not allow to sign up new account"
              []
| ValidationFailed form application :
    resolves ctx c form application ->
    Application.EnableSignUp application = true ->
    validation c form application <> "" ->
    Rejection ctx c (validation c form application) []
| EmailCodeInvalid form application :
    resolves ctx c form application ->
    Application.EnableSignUp application = true ->
    validation c form application = "" ->
    email_checked form application ->
    email_result c form <> "" ->
    Rejection ctx c ("Email: " +:+ email_result c form) []
| PhoneCodeInvalid form application :
    resolves ctx c form application ->
    Application.EnableSignUp application = true ->
    validation c form application = "" ->
    (email_checked form application -> email_result c form = "") ->
    phone_checked form application ->
    phone_result c form <> "" ->
    Rejection ctx c ("Phone: " +:+ phone_result c form) [].

(** The identifier [Signup_create] allocates. *)
Definition allocated (form : RequestForm.t) (application : Application.t)
    (c : World) (id : string) : Prop :=
  if String.eqb (Application.GetSignupItemRule application "ID")
                "Incremental"
  then incrementalId form c = Some id
  else id = GenerateId c.

(** The user name [Signup_create] chooses. *)
Definition chosen_name (form : RequestForm.t) (application : Application.t)
    (id : string) : string :=
  if negb (Application.IsSignupItemVisible application "Username")
  then id else RequestForm.Username form.

Definition checked_phone (form : RequestForm.t)
    (application : Application.t) : string :=
  if Application.IsSignupItemVisible application "Phone"
     && negb (String.eqb (RequestForm.Phone form) "")
  then phone_target form else "".

End Rejections.

Section Panics.

Context `{Collaborators}.



End Panics.

(** One run of [Signup]: the request, the state before, the state after
    and the user it created. *)
Record SignupStep : Type := mkStep {
  step_ctx : Ctx;
  step_before : World;
  step_after : World;
  step_user : User.t
}.

(** Between the step [s] and the step [s'] no user of [org] was created or
    removed: at [s'] the last user of [org] is the one it was after [s]. *)
Definition follows (org : string) (s s' : SignupStep) : Prop :=
  GetLastUser org (step_before s') = GetLastUser org (step_after s).

Section Runs.

Context `{Collaborators}.

(** The step [s] is a signup for the organization [org], through an
    application whose ID rule is "Incremental", that created a user. *)
Definition incremental_signup (org : string) (s : SignupStep) : Prop :=
  exists form application,
    Signup (step_ctx s) (step_before s) = Returned (step_after s) /\
    created_user (step_before s) (step_after s) (step_user s) /\
    json_Unmarshal (RequestBody (step_ctx s)) = Some form /\
    GetApplication ("admin/" +:+ RequestForm.Application form)
    = Some application /\
    Application.GetSignupItemRule application "ID" = "Incremental" /\
    RequestForm.Organization form = org.

(** The steps [rest] are incremental signups of [org] that follow [s] and
    one another, oldest first. *)
Fixpoint sequential (org : string) (s : SignupStep)
    (rest : list SignupStep) : Prop :=
  match rest with
  | [] => True
  | s' :: rest' =>
      follows org s s' /\ incremental_signup org s' /\
      sequential org s' rest'
  end.

End Runs.

(** From [c] to [c'] neither the session nor a store has changed. *)
Definition same_state (c c' : World) : Prop :=
  session_username c' = session_username c /\
  session_data c' = session_data c /\
  users c' = users c /\
  original_db c' = original_db c /\
  verification c' = verification c /\
  records c' = records c /\
  logs c' = logs c.

(** The text [t] has no character [sep]. *)
Definition free_of (sep : ascii) (t : string) : Prop :=
  forall a b : string, t <> a +:+ String sep b.

Module Scenario.

(** The codes that were sent to Kim's email and phone. *)
Definition kim_codes : gmap string string :=
  <["+33612345678" := "2121"]> (<["kim@example.org" := "4242"]> ∅).

Definition find_user (us : list User.t) (userId : string) : option User.t :=
  find (fun u => String.eqb (User.Owner u +:+ "/" +:+ User.Name u) userId)
       us.

Definition organization_by_user (u : User.t) : option Organization.t :=
  Demo.organization_of ("admin/" +:+ User.Owner u).

Definition masked (o : option Organization.t) : option Organization.t :=
  match o with
  | Some o => Some (Organization.mk (Organization.Name o) "" [])
  | None => None
  end.

Definition accounts : AccountCollaborators := {|
  GetUser := find_user;
  GetOrganizationByUser := organization_by_user;
  GetMaskedOrganization := masked
|}.

(** A session of [name] on a server that has the users [us]. *)
Definition session (name : string) (us : list User.t) : World :=
  mkWorld name (Some (mkSessionData (Some Demo.app_a) "openid" "client-1"))
          us [] ∅ [] [] None [].


(** An application that counts identifiers and has a prompt page, in a
    deployment that is otherwise the one of [Demo]. *)
Definition app_prompt : Application.t :=
  Application.mk "app-prompt" "org" true "https://p.example.org"
                 Demo.visible_all Demo.rules_a true.

Definition application_of (id : string) : option Application.t :=
  if String.eqb id "admin/app-prompt" then Some app_prompt
  else Demo.application_of id.

Definition unmarshal (body : string) : option RequestForm.t :=
  if String.eqb body "lin" then
    Some (Demo.form "app-prompt" "lin" "Lin" "" "" "" "")
  else if String.eqb body "mei" then
    Some (Demo.form "app-prompt" "mei" "Mei" "" "" "" "")
  else if String.eqb body "noa" then
    Some (Demo.form "app-prompt" "noa" "Noa" "" "" "" "")
  else Demo.unmarshal body.

Definition prompting : Collaborators := {|
  json_Unmarshal := unmarshal;
  GetApplication := application_of;
  GetOrganization := Demo.organization_of;
  CheckUserSignup := Demo.check_signup;
  CheckVerificationCode := Demo.check_code;
  GenerateId := fun _ => "8b2c7f7e-0d3a-4b52-9d0e-5f1c6a7e9b10";
  GetCurrentTime := fun _ => "2021-12-01T10:00:00Z";
  getInitScore := 2000;
  User_GetId := fun u => User.Owner u +:+ "/" +:+ User.Name u;
  StructToJson := fun u => User.Name u;
  NewRecord := fun ctx => AuditRecord.mk (RequestBody ctx) "" "";
  GetUserInfo := Demo.userinfo;
  GetDefaultHumanCheckProvider := None;
  GetCaptcha := fun _ => ("k3Xq", anyString "iVBORw0KGgo=");
  NotSignedIn := "Please sign in first"
|}.

(** The state in which a handler has left the server. *)
Definition state_of (o : Outcome) : World :=
  match o with
  | Returned w => w
  | Panicked w => w
  end.

(** Lin signs up, logs out; Mei signs up, logs out; Noa signs up. *)
Definition after_lin : World :=
  state_of (@Signup prompting (Demo.request "lin") (Demo.server [] ∅)).

Definition lin_gone : World :=
  state_of (Logout (Demo.request "") after_lin).

Definition after_mei : World :=
  state_of (@Signup prompting (Demo.request "mei") lin_gone).

Definition mei_gone : World :=
  state_of (Logout (Demo.request "") after_mei).

Definition after_noa : World :=
  state_of (@Signup prompting (Demo.request "noa") mei_gone).

Definition newest (w : World) : User.t :=
  match users w with
  | u :: _ => u
  | [] => Demo.member "" ""
  end.

Definition step_lin : SignupStep :=
  mkStep (Demo.request "lin") (Demo.server [] ∅) after_lin (newest after_lin).

Definition step_mei : SignupStep :=
  mkStep (Demo.request "mei") lin_gone after_mei (newest after_mei).

Definition step_noa : SignupStep :=
  mkStep (Demo.request "noa") mei_gone after_noa (newest after_noa).

End Scenario.


(* ===================================================================== *)
(** * Decimal conversion: what is written is read back *)
(* ===================================================================== *)

Section StrconvFacts.

Import strconv.

Lemma digit_cases (d : Z) :
  0 <= d < 10 ->
  d = 0 \/ d = 1 \/ d = 2 \/ d = 3 \/ d = 4 \/
  d = 5 \/ d = 6 \/ d = 7 \/ d = 8 \/ d = 9.
Proof. lia. Qed.

Lemma digit_of_char (d : Z) :
  0 <= d < 10 -> digit_of (digit_char d) = Some d.
Proof.
  intros Hd. destruct (digit_cases d Hd) as [E | Hrest].
  - subst d. reflexivity.
  - repeat (destruct Hrest as [E | Hrest]; [subst d; reflexivity |]).
    subst d. reflexivity.
Qed.

Lemma digit_char_no_sign (d : Z) :
  0 <= d < 10 ->
  Ascii.eqb (digit_char d) "-" = false /\
  Ascii.eqb (digit_char d) "+" = false.
Proof.
  intros Hd. destruct (digit_cases d Hd) as [E | Hrest].
  - subst d. split; reflexivity.
  - repeat (destruct Hrest as [E | Hrest]; [subst d; split; reflexivity |]).
    subst d. split; reflexivity.
Qed.

(** Reading the digits of [u] written in front of [s] is reading [s] from
    the value [u]. *)
Lemma parse_format_digits (fuel : nat) :
  forall (u : Z) (s : string),
    0 <= u < 10 ^ Z.of_nat fuel ->
    parse_digits 0 (format_digits fuel u s) = parse_digits u s.
Proof.
  induction fuel as [| fuel IH]; intros u s Hu.
  - simpl in *. replace u with 0 by lia. reflexivity.
  - cbn [format_digits].
    assert (Hmod : 0 <= u mod 10 < 10) by (apply Z.mod_pos_bound; lia).
    destruct (u <? 10) eqn:Hlt.
    + apply Z.ltb_lt in Hlt. cbn [parse_digits].
      rewrite digit_of_char by assumption.
      rewrite Z.mod_small by lia. reflexivity.
    + apply Z.ltb_ge in Hlt.
      rewrite IH.
      * cbn [parse_digits]. rewrite digit_of_char by assumption.
        f_equal. pose proof (Z.div_mod u 10). lia.
      * rewrite Nat2Z.inj_succ, Z.pow_succ_r in Hu by lia.
        split; [apply Z.div_pos; lia |].
        apply Z.div_lt_upper_bound; lia.
Qed.

(** What [format_digits] writes starts with a digit. *)
Lemma format_digits_head (fuel : nat) :
  forall (u : Z) (s : string),
    exists d r, 0 <= d < 10 /\
                format_digits (S fuel) u s = String (digit_char d) r.
Proof.
  induction fuel as [| fuel IH]; intros u s.
  - exists (u mod 10), s. split; [apply Z.mod_pos_bound; lia |].
    cbn [format_digits]. destruct (u <? 10); reflexivity.
  - assert (Hmod : 0 <= u mod 10 < 10) by (apply Z.mod_pos_bound; lia).
    change (format_digits (S (S fuel)) u s)
      with (let acc' := String (digit_char (u mod 10)) s in
            if u <? 10 then acc' else format_digits (S fuel) (u / 10) acc').
    cbv zeta. destruct (u <? 10).
    + exists (u mod 10), s. split; [assumption | reflexivity].
    + apply IH.
Qed.

Lemma parse_FormatUint (u : Z) :
  0 <= u < 10 ^ 20 -> parse_digits 0 (FormatUint u) = Some u.
Proof.
  intros Hu. unfold FormatUint.
  rewrite (parse_format_digits 20 u "") by exact Hu. reflexivity.
Qed.

Lemma in_int_bounds (z : Z) :
  in_int z = true <-> MinInt <= z <= MaxInt.
Proof.
  unfold in_int. rewrite andb_true_iff, !Z.leb_le. reflexivity.
Qed.

(** [Atoi] reads back what [Itoa] wrote, for every value of an [int]. *)
Lemma Atoi_Itoa (i : Z) : in_int i = true -> Atoi (Itoa i) = Some i.
Proof.
  intros Hin. pose proof (proj1 (in_int_bounds i) Hin) as Hb.
  unfold MinInt, MaxInt in Hb. unfold Itoa, FormatInt.
  destruct (i <? 0) eqn:Hneg.
  - apply Z.ltb_lt in Hneg.
    destruct (format_digits_head 19 (- i) "") as (d & r & Hd & Hhead).
    unfold Atoi. cbn [Ascii.eqb Bool.eqb orb].
    change (Ascii.eqb "-" "-") with true. cbn [orb].
    assert (Hp : parse_digits 0 (FormatUint (- i)) = Some (- i))
      by (apply parse_FormatUint; lia).
    unfold FormatUint in *. rewrite Hhead in *. rewrite Hp.
    rewrite Z.opp_involutive, Hin. reflexivity.
  - apply Z.ltb_ge in Hneg.
    destruct (format_digits_head 19 i "") as (d & r & Hd & Hhead).
    assert (Hp : parse_digits 0 (FormatUint i) = Some i)
      by (apply parse_FormatUint; lia).
    unfold FormatUint in *. rewrite Hhead in *.
    destruct (digit_char_no_sign d Hd) as [Hm Hp'].
    unfold Atoi. rewrite Hm, Hp'. cbn [orb]. rewrite Hp, Hin. reflexivity.
Qed.

Lemma in_int_wrap64 (z : Z) : in_int (wrap64 z) = true.
Proof.
  apply in_int_bounds. unfold wrap64, MinInt, MaxInt.
  pose proof (Z.mod_pos_bound (z + 2 ^ 63) (2 ^ 64)). lia.
Qed.

Lemma wrap64_small (z : Z) : MinInt <= z <= MaxInt -> wrap64 z = z.
Proof.
  unfold wrap64, MinInt, MaxInt. intros Hz.
  rewrite Z.mod_small; lia.
Qed.

Lemma add_one_small (n : Z) :
  MinInt <= n < MaxInt -> add n 1 = n + 1.
Proof.
  intros Hn. unfold add. apply wrap64_small. lia.
Qed.

End StrconvFacts.

(* ===================================================================== *)
(** * Signup: requests that are turned down *)
(* ===================================================================== *)

Section SignupRejected.

Context `{Collaborators}.

Lemma eqb_empty_false (s : string) : s <> "" -> String.eqb s "" = false.
Proof. intros Hs. apply String.eqb_neq. exact Hs. Qed.

Lemma eqb_empty_true (s : string) : s = "" -> String.eqb s "" = true.
Proof. intros Hs. apply String.eqb_eq. exact Hs. Qed.

(** An error answer serves one payload and changes nothing else. *)
Lemma ResponseError_answered_only (msg : string) (data : list any)
    (c : World) :
  answered_only c (ResponseError msg data c) (error_response msg data).
Proof. unfold answered_only. repeat split. Qed.

(** The checks of [Signup] up to the point where [form] and [application]
    are known. *)
Lemma Signup_resolved (ctx : Ctx) (c : World) (form : RequestForm.t)
    (application : Application.t) :
  resolves ctx c form application ->
  Application.EnableSignUp application = true ->
  validation c form application = "" ->
  Signup ctx c =
  let checkEmail :=
    Application.IsSignupItemVisible application "Email"
    && negb (String.eqb (RequestForm.Email form) "") in
  let checkPhone :=
    Application.IsSignupItemVisible application "Phone"
    && negb (String.eqb (RequestForm.Phone form) "") in
  if negb (String.eqb (if checkEmail then email_result c form else "") "")
  then Returned (ResponseError
                   ("Email: " +:+
                    (if checkEmail then email_result c form else "")) [] c)
  else if negb (String.eqb
                  (if checkPhone then phone_result c form else "") "")
  then Returned (ResponseError
                   ("Phone: " +:+
                    (if checkPhone then phone_result c form else "")) [] c)
  else Signup_create ctx form application
         (GetOrganization ("admin/" +:+ RequestForm.Organization form))
         (if checkPhone then phone_target form else "") c.
Proof.
  intros (Huser & Hform & Happ) Henabled Hvalid.
  unfold Signup. rewrite (eqb_empty_true _ Huser). cbn [negb].
  rewrite Hform, Happ, Henabled. cbn [negb].
  unfold validation in Hvalid.
  change ("admin" +:+ "/" +:+ RequestForm.Organization form)
    with ("admin/" +:+ RequestForm.Organization form).
  rewrite Hvalid. change (negb (String.eqb "" "")) with false. cbv iota zeta.
  destruct (Application.IsSignupItemVisible application "Phone"
            && negb (String.eqb (RequestForm.Phone form) ""));
    reflexivity.
Qed.

End SignupRejected.

Section SignupRejectedClaim.

Context `{Collaborators}.

(** C1.  A signup request that fails a check made before the user is
    stored -- the caller is already signed in, the application does not
    allow signup, the validation of the fields fails, the email code or
    the phone code is wrong -- is answered with the error of that check,
    and that answer is all that happens: no user record is created, the
    session is kept, no verification code is disabled, nothing is
    replicated and nothing is recorded. *)
Theorem Signup_rejected_only_answers (ctx : Ctx) (c : World) (msg : string)
    (data : list any) :
  Rejection ctx c msg data ->
  exists c', Signup ctx c = Returned c' /\
             answered_only c c' (error_response msg data).
Proof.
  intros Hrej.
  destruct Hrej as
    [ Huser
    | form application Hres Hoff
    | form application Hres Hon Hmsg
    | form application Hres Hon Hvalid [Hvis Hmail] Hcode
    | form application Hres Hon Hvalid Hemail [Hvis Hphone] Hcode ].
  - exists (ResponseError "Please sign out first before signing up"
                          [anyString (GetSessionUsername c)] c).
    split; [| apply ResponseError_answered_only].
    unfold Signup. rewrite (eqb_empty_false _ Huser). reflexivity.
  - exists (ResponseError
              "The application does not allow to sign up new account" [] c).
    split; [| apply ResponseError_answered_only].
    destruct Hres as (Huser & Hform & Happ).
    unfold Signup. rewrite (eqb_empty_true _ Huser). cbn [negb].
    rewrite Hform, Happ, Hoff. reflexivity.
  - exists (ResponseError (validation c form application) [] c).
    split; [| apply ResponseError_answered_only].
    destruct Hres as (Huser & Hform & Happ).
    unfold Signup. rewrite (eqb_empty_true _ Huser). cbn [negb].
    rewrite Hform, Happ, Hon. cbn [negb]. cbv zeta.
    change ("admin" +:+ "/" +:+ RequestForm.Organization form)
      with ("admin/" +:+ RequestForm.Organization form).
    fold (validation c form application).
    rewrite (eqb_empty_false _ Hmsg). reflexivity.
  - exists (ResponseError ("Email: " +:+ email_result c form) [] c).
    split; [| apply ResponseError_answered_only].
    rewrite (Signup_resolved ctx c form application Hres Hon Hvalid).
    cbv zeta. rewrite Hvis, (eqb_empty_false _ Hmail). cbn [negb andb].
    rewrite (eqb_empty_false _ Hcode). reflexivity.
  - exists (ResponseError ("Phone: " +:+ phone_result c form) [] c).
    split; [| apply ResponseError_answered_only].
    rewrite (Signup_resolved ctx c form application Hres Hon Hvalid).
    cbv zeta.
    assert (Hpass :
      String.eqb
        (if Application.IsSignupItemVisible application "Email"
            && negb (String.eqb (RequestForm.Email form) "")
         then email_result c form else "") "" = true).
    { destruct (Application.IsSignupItemVisible application "Email") eqn:Ev;
        [| reflexivity].
      destruct (String.eqb (RequestForm.Email form) "") eqn:Ee;
        [reflexivity |].
      cbn [negb andb]. apply eqb_empty_true, Hemail.
      split; [exact Ev | apply String.eqb_neq, Ee]. }
    rewrite Hpass. cbn [negb].
    rewrite Hvis, (eqb_empty_false _ Hphone). cbn [negb andb].
    rewrite (eqb_empty_false _ Hcode). reflexivity.
Qed.

End SignupRejectedClaim.

(** The signup of "closed" is turned down: its application does not allow
    signup. *)
Lemma Signup_rejected_only_answers_witness :
  @Rejection Demo.plain (Demo.request "closed") (Demo.server [] ∅)
             "The application does not allow to sign up new account" [] /\
  exists c',
    @Signup Demo.plain (Demo.request "closed") (Demo.server [] ∅)
    = Returned c' /\
    answered_only (Demo.server [] ∅) c'
      (error_response
         "The application does not allow to sign up new account" []).
Proof.
  assert (Hrej :
    @Rejection Demo.plain (Demo.request "closed") (Demo.server [] ∅)
               "The application does not allow to sign up new account" []).
  { apply (@SignupDisabled Demo.plain _ _
             (Demo.form "app-closed" "zed" "Zed" "" "" "" "")
             Demo.app_closed).
    - repeat split.
    - reflexivity. }
  split; [exact Hrej |].
  exact (@Signup_rejected_only_answers Demo.plain _ _ _ _ Hrej).
Defined.

(* ===================================================================== *)
(** * Signup: requests that create a user *)
(* ===================================================================== *)

Section SignupCreated.

Context `{Collaborators}.

Lemma cons_not_self {A : Type} (x : A) (l : list A) : l <> x :: l.
Proof.
  intros Heq. apply (f_equal (@List.length A)) in Heq.
  cbn [List.length] in Heq. lia.
Qed.

(** An error answer creates no user. *)
Lemma ResponseError_not_created (msg : string) (data : list any)
    (c : World) (u : User.t) :
  ~ created_user c (ResponseError msg data c) u.
Proof. unfold created_user. cbn. apply cons_not_self. Qed.

Lemma Signup_store_created (ctx : Ctx) (form : RequestForm.t)
    (application : Application.t) (checkPhone : string) (user u : User.t)
    (c c' : World) :
  Signup_store ctx form application checkPhone user c = Returned c' ->
  created_user c c' u ->
  u = user /\ AddUser user c = (true, set_users (user :: users c) c).
Proof.
  unfold Signup_store, AddUser.
  destruct (existsb (same_key user) (users c)).
  - cbn [negb]. intros [= <-] Hc.
    exfalso. exact (ResponseError_not_created _ _ _ _ Hc).
  - cbn [negb]. intros [= <-] Hc. split; [| reflexivity].
    unfold created_user in Hc.
    destruct (Application.HasPromptPage application);
      unfold DisableVerificationCode in Hc;
      destruct (String.eqb (RequestForm.Email form) "");
      destruct (String.eqb checkPhone ""); cbn in Hc; congruence.
Qed.

(** What is known when [Signup] has created the user [u]. *)
Lemma Signup_created_inv (ctx : Ctx) (c c' : World) (u : User.t) :
  Signup ctx c = Returned c' ->
  created_user c c' u ->
  exists form application organization id,
    resolves ctx c form application /\
    Application.EnableSignUp application = true /\
    validation c form application = "" /\
    GetOrganization ("admin/" +:+ RequestForm.Organization form)
    = Some organization /\
    allocated form application c id /\
    u = newUser form application organization
                (chosen_name form application id) id c /\
    Signup_store ctx form application (checked_phone form application) u c
    = Returned c'.
Proof.
  intros Hrun0 Hc. pose proof Hrun0 as Hrun.
  unfold Signup in Hrun.
  destruct (String.eqb (GetSessionUsername c) "") eqn:Huser; cbn [negb] in Hrun;
    [| injection Hrun as <-;
       exfalso; exact (ResponseError_not_created _ _ _ _ Hc)].
  destruct (json_Unmarshal (RequestBody ctx)) as [form |] eqn:Hform;
    [| discriminate].
  destruct (GetApplication ("admin/" +:+ RequestForm.Application form))
    as [application |] eqn:Happ; [| discriminate].
  destruct (Application.EnableSignUp application) eqn:Hon; cbn [negb] in Hrun;
    [| injection Hrun as <-;
       exfalso; exact (ResponseError_not_created _ _ _ _ Hc)].
  assert (Hres : resolves ctx c form application).
  { split; [apply String.eqb_eq, Huser | split; assumption]. }
  destruct (String.eqb (validation c form application) "") eqn:Hvalid.
  2:{ exfalso. cbv zeta in Hrun.
      change ("admin" +:+ "/" +:+ RequestForm.Organization form)
        with ("admin/" +:+ RequestForm.Organization form) in Hrun.
      fold (validation c form application) in Hrun.
      rewrite Hvalid in Hrun. cbn [negb] in Hrun.
      injection Hrun as <-. exact (ResponseError_not_created _ _ _ _ Hc). }
  apply String.eqb_eq in Hvalid. clear Hrun.
  rewrite (Signup_resolved ctx c form application Hres Hon Hvalid) in Hrun0.
  rename Hrun0 into Hrun. cbv zeta in Hrun.
  destruct (negb (String.eqb _ "")) in Hrun;
    [injection Hrun as <-;
     exfalso; exact (ResponseError_not_created _ _ _ _ Hc) |].
  destruct (negb (String.eqb _ "")) in Hrun;
    [injection Hrun as <-;
     exfalso; exact (ResponseError_not_created _ _ _ _ Hc) |].
  fold (checked_phone form application) in Hrun.
  unfold Signup_create in Hrun. cbv zeta in Hrun.
  destruct (if String.eqb (Application.GetSignupItemRule application "ID")
                          "Incremental"
            then incrementalId form c else Some (GenerateId c))
    as [id |] eqn:Hid; [| discriminate].
  destruct (GetOrganization ("admin/" +:+ RequestForm.Organization form))
    as [organization |] eqn:Horg; [| discriminate].
  fold (chosen_name form application id) in Hrun.
  destruct (Signup_store_created _ _ _ _ _ _ _ _ Hrun Hc) as [-> _].
  exists form, application, organization, id.
  repeat (split; [assumption |]).
  split; [| split; [reflexivity | exact Hrun]].
  unfold allocated.
  destruct (String.eqb (Application.GetSignupItemRule application "ID")
                       "Incremental"); congruence.
Qed.

(** [Signup] stores at most one user, and a panic leaves the state as it
    was. *)
Lemma Signup_users (ctx : Ctx) (c : World) :
  match Signup ctx c with
  | Returned c' => users c' = users c \/ exists u, created_user c c' u
  | Panicked c' => c' = c
  end.
Proof.
  unfold Signup, Signup_create, Signup_store, AddUser, created_user.
  cbv zeta.
  repeat match goal with
         | |- context [match json_Unmarshal ?b with _ => _ end] =>
             destruct (json_Unmarshal b)
         | |- context [match GetApplication ?a with _ => _ end] =>
             destruct (GetApplication a)
         | |- context [match GetOrganization ?a with _ => _ end] =>
             destruct (GetOrganization a)
         | |- context [if existsb ?f ?l then _ else _] =>
             destruct (existsb f l); cbn [negb]
         | |- context [if negb (String.eqb ?x ?y) then _ else _] =>
             destruct (String.eqb x y); cbn [negb]
         | |- context [if negb (Application.EnableSignUp ?a) then _ else _] =>
             destruct (Application.EnableSignUp a); cbn [negb]
         | |- context [match (if ?b then _ else _) with _ => _ end] =>
             destruct b
         | |- context [match incrementalId ?f ?w with _ => _ end] =>
             destruct (incrementalId f w)
         end;
    try reflexivity; try (left; reflexivity);
    right; eexists; unfold DisableVerificationCode;
    repeat match goal with
           | |- context [if Application.HasPromptPage ?a then _ else _] =>
               destruct (Application.HasPromptPage a)
           | |- context [if String.eqb ?x "" then _ else _] =>
               destruct (String.eqb x "")
           end; reflexivity.
Qed.

End SignupCreated.

Section NewUser.

Context `{Collaborators}.

Ltac newUser_cases form application organization :=
  unfold newUser;
  destruct (Organization.Tags organization) as [| tags0 ?];
    [| destruct (Split tags0 "|") as [| token0 ?]];
  destruct (String.eqb (Application.GetSignupItemRule application
                                                      "Display name")
                       "First, last");
  destruct (negb (String.eqb (RequestForm.FirstName form) "")
            || negb (String.eqb (RequestForm.LastName form) "")).

(** The tag and the display name do not touch the other fields. *)
Lemma newUser_identity (form : RequestForm.t) (application : Application.t)
    (organization : Organization.t) (username id : string) (c : World) :
  let u := newUser form application organization username id c in
  User.Owner u = RequestForm.Organization form /\
  User.Name u = username /\
  User.Id u = id.
Proof.
  cbv zeta. newUser_cases form application organization;
    repeat split.
Qed.

Lemma newUser_plain (form : RequestForm.t) (application : Application.t)
    (organization : Organization.t) (username id : string) (c : World) :
  let u := newUser form application organization username id c in
  User.Type_ u = "normal-user" /\
  User.IsAdmin u = false /\
  User.IsGlobalAdmin u = false /\
  User.IsForbidden u = false /\
  User.IsDeleted u = false /\
  User.Karma u = 0 /\
  User.Address u = [] /\
  User.Properties u = ∅.
Proof.
  cbv zeta. newUser_cases form application organization;
    repeat split.
Qed.

Lemma newUser_composed (form : RequestForm.t) (application : Application.t)
    (organization : Organization.t) (username id : string) (c : World) :
  Application.GetSignupItemRule application "Display name" = "First, last" ->
  RequestForm.FirstName form <> "" \/ RequestForm.LastName form <> "" ->
  let u := newUser form application organization username id c in
  User.DisplayName u
  = RequestForm.FirstName form +:+ " " +:+ RequestForm.LastName form /\
  User.FirstName u = RequestForm.FirstName form /\
  User.LastName u = RequestForm.LastName form.
Proof.
  intros Hrule Hpart. cbv zeta.
  assert (Hcond : negb (String.eqb (RequestForm.FirstName form) "")
                  || negb (String.eqb (RequestForm.LastName form) "")
                  = true).
  { destruct Hpart as [Hp | Hp]; rewrite (proj2 (String.eqb_neq _ _) Hp);
      cbn [negb orb]; [reflexivity | apply orb_true_r]. }
  unfold newUser. rewrite Hrule, Hcond.
  change (String.eqb "First, last" "First, last") with true. cbv iota.
  destruct (Organization.Tags organization) as [| tags0 ?];
    [| destruct (Split tags0 "|") as [| token0 ?]];
    repeat split.
Qed.

Lemma newUser_submitted (form : RequestForm.t) (application : Application.t)
    (organization : Organization.t) (username id : string) (c : World) :
  ~ (Application.GetSignupItemRule application "Display name"
     = "First, last" /\
     (RequestForm.FirstName form <> "" \/ RequestForm.LastName form <> "")) ->
  User.DisplayName (newUser form application organization username id c)
  = RequestForm.Name form.
Proof.
  intros Hnot. unfold newUser.
  destruct (String.eqb (Application.GetSignupItemRule application
                                                      "Display name")
                       "First, last") eqn:Hrule.
  - destruct (String.eqb (RequestForm.FirstName form) "") eqn:Hf;
      destruct (String.eqb (RequestForm.LastName form) "") eqn:Hl;
      cbn [negb orb];
      try (exfalso; apply Hnot; split; [apply String.eqb_eq, Hrule |];
           first [ left; apply String.eqb_neq, Hf
                 | right; apply String.eqb_neq, Hl ]).
    destruct (Organization.Tags organization) as [| tags0 ?];
      [| destruct (Split tags0 "|") as [| token0 ?]]; reflexivity.
  - destruct (Organization.Tags organization) as [| tags0 ?];
      [| destruct (Split tags0 "|") as [| token0 ?]]; reflexivity.
Qed.

(** The form and the application of a request are determined by it. *)
Lemma resolves_same (ctx : Ctx) (c : World) (form form' : RequestForm.t)
    (application application' : Application.t) :
  resolves ctx c form' application' ->
  json_Unmarshal (RequestBody ctx) = Some form ->
  GetApplication ("admin/" +:+ RequestForm.Application form)
  = Some application ->
  form' = form /\ application' = application.
Proof.
  intros (_ & Hform' & Happ') Hform Happ.
  assert (form' = form) by congruence. subst form'.
  split; [reflexivity | congruence].
Qed.

(** C6.  When a signup has created a user and the field "Username" is not
    among the visible signup fields of the application, the name of the
    created record is its identifier; when the field is visible, the name
    is the submitted user name. *)
Theorem Signup_username (ctx : Ctx) (c c' : World) (u : User.t)
    (form : RequestForm.t) (application : Application.t) :
  Signup ctx c = Returned c' ->
  created_user c c' u ->
  json_Unmarshal (RequestBody ctx) = Some form ->
  GetApplication ("admin/" +:+ RequestForm.Application form)
  = Some application ->
  (Application.IsSignupItemVisible application "Username" = false ->
   User.Name u = User.Id u) /\
  (Application.IsSignupItemVisible application "Username" = true ->
   User.Name u = RequestForm.Username form).
Proof.
  intros Hrun Hc Hform Happ.
  destruct (Signup_created_inv ctx c c' u Hrun Hc)
    as (form' & application' & organization & id & Hres & _ & _ & _ & _
        & Hu & _).
  destruct (resolves_same _ _ _ _ _ _ Hres Hform Happ) as [-> ->].
  destruct (newUser_identity form application organization
              (chosen_name form application id) id c) as (_ & Hname & Hid).
  rewrite <- Hu in Hname, Hid. unfold chosen_name in Hname.
  split; intros Hvis; rewrite Hvis in Hname; cbn [negb] in Hname; congruence.
Qed.

(** C7.  When a signup has created a user, the display-name rule of the
    application is "First, last" and the first name or the last name is
    not empty, the display name of the created record is the first name,
    one space and the last name, and the record keeps the first and the
    last name; in every other case the display name is the submitted
    one. *)
Theorem Signup_display_name (ctx : Ctx) (c c' : World) (u : User.t)
    (form : RequestForm.t) (application : Application.t) :
  Signup ctx c = Returned c' ->
  created_user c c' u ->
  json_Unmarshal (RequestBody ctx) = Some form ->
  GetApplication ("admin/" +:+ RequestForm.Application form)
  = Some application ->
  let composed :=
    Application.GetSignupItemRule application "Display name"
    = "First, last" /\
    (RequestForm.FirstName form <> "" \/ RequestForm.LastName form <> "") in
  (composed ->
   User.DisplayName u
   = RequestForm.FirstName form +:+ " " +:+ RequestForm.LastName form /\
   User.FirstName u = RequestForm.FirstName form /\
   User.LastName u = RequestForm.LastName form) /\
  (~ composed -> User.DisplayName u = RequestForm.Name form).
Proof.
  intros Hrun Hc Hform Happ composed.
  destruct (Signup_created_inv ctx c c' u Hrun Hc)
    as (form' & application' & organization & id & Hres & _ & _ & _ & _
        & Hu & _).
  destruct (resolves_same _ _ _ _ _ _ Hres Hform Happ) as [-> ->].
  subst u. split.
  - intros [Hrule Hpart]. apply newUser_composed; assumption.
  - intros Hnot. apply newUser_submitted. exact Hnot.
Qed.

(** C10.  Every user record that [Signup] has built and stored has the
    type "normal-user", is no administrator and no global administrator,
    is neither forbidden nor deleted, has karma 0, no address and no
    property. *)
Theorem Signup_user_unprivileged (ctx : Ctx) (c c' : World) (u : User.t) :
  Signup ctx c = Returned c' ->
  created_user c c' u ->
  User.Type_ u = "normal-user" /\
  User.IsAdmin u = false /\
  User.IsGlobalAdmin u = false /\
  User.IsForbidden u = false /\
  User.IsDeleted u = false /\
  User.Karma u = 0 /\
  User.Address u = [] /\
  User.Properties u = ∅.
Proof.
  intros Hrun Hc.
  destruct (Signup_created_inv ctx c c' u Hrun Hc)
    as (form & application & organization & id & _ & _ & _ & _ & _
        & Hu & _).
  subst u. apply newUser_plain.
Qed.

End NewUser.

(** The signup of "eve" through an application that shows no field: the
    record is named by its identifier. *)
Lemma Signup_username_witness :
  exists c' u,
    @Signup Demo.plain (Demo.request "eve") (Demo.server [] ∅)
    = Returned c' /\
    created_user (Demo.server [] ∅) c' u /\
    User.Name u = "8b2c7f7e-0d3a-4b52-9d0e-5f1c6a7e9b10" /\
    (Application.IsSignupItemVisible Demo.app_b "Username" = false ->
     User.Name u = User.Id u).
Proof.
  eexists. eexists.
  split; [vm_compute; reflexivity |].
  split; [reflexivity |].
  split; [reflexivity |].
  refine (proj1 (@Signup_username Demo.plain (Demo.request "eve")
                   (Demo.server [] ∅) _ _
                   (Demo.form "app-b" "eve" "Eve" "" "" "eve@example.org" "")
                   Demo.app_b _ _ _ _)).
  - vm_compute; reflexivity.
  - reflexivity.
  - reflexivity.
  - reflexivity.
Defined.

(** The signup of Ada Lovelace under the rule "First, last". *)
Lemma Signup_display_name_witness :
  exists c' u,
    @Signup Demo.plain (Demo.request "ada") (Demo.server [] ∅)
    = Returned c' /\
    created_user (Demo.server [] ∅) c' u /\
    User.DisplayName u = "Ada Lovelace" /\
    User.FirstName u = "Ada" /\
    User.LastName u = "Lovelace".
Proof.
  eexists. eexists.
  split; [vm_compute; reflexivity |].
  split; [reflexivity |].
  refine (proj1 (@Signup_display_name Demo.plain (Demo.request "ada")
                   (Demo.server [] ∅) _ _
                   (Demo.form "app-a" "ada" "Countess" "Ada" "Lovelace" "" "")
                   Demo.app_a _ _ _ _) _).
  - vm_compute; reflexivity.
  - reflexivity.
  - reflexivity.
  - reflexivity.
  - split; [reflexivity | left; discriminate].
Defined.

Lemma Signup_user_unprivileged_witness :
  exists c' u,
    @Signup Demo.plain (Demo.request "ada") (Demo.server [] ∅)
    = Returned c' /\
    created_user (Demo.server [] ∅) c' u /\
    User.Type_ u = "normal-user" /\
    User.IsAdmin u = false /\
    User.IsGlobalAdmin u = false /\
    User.IsForbidden u = false /\
    User.IsDeleted u = false /\
    User.Karma u = 0 /\
    User.Address u = [] /\
    User.Properties u = ∅.
Proof.
  eexists. eexists.
  split; [vm_compute; reflexivity |].
  split; [reflexivity |].
  refine (@Signup_user_unprivileged Demo.plain (Demo.request "ada")
            (Demo.server [] ∅) _ _ _ _).
  - vm_compute; reflexivity.
  - reflexivity.
Defined.

(* ===================================================================== *)
(** * Signup: incremental identifiers *)
(* ===================================================================== *)

Section Incremental.

Context `{Collaborators}.

Lemma Atoi_in_int (s : string) (n : Z) :
  strconv.Atoi s = Some n -> strconv.in_int n = true.
Proof.
  unfold strconv.Atoi. destruct s as [| ch r]; [discriminate |].
  cbv zeta.
  destruct (if Ascii.eqb ch "-" || Ascii.eqb ch "+" then r else String ch r);
    [discriminate |].
  destruct (strconv.parse_digits 0 _) as [m |]; [| discriminate].
  destruct (strconv.in_int (if Ascii.eqb ch "-" then - m else m)) eqn:Hin;
    [| discriminate].
  intros [= <-]. exact Hin.
Qed.

Lemma incrementalId_value (form : RequestForm.t) (c : World) (id : string) :
  incrementalId form c = Some id ->
  exists last,
    last_value (RequestForm.Organization form) c last /\
    strconv.MinInt <= last <= strconv.MaxInt /\
    id = strconv.Itoa (strconv.add last 1).
Proof.
  unfold incrementalId, last_value, ParseInt. cbv zeta.
  destruct (GetLastUser (RequestForm.Organization form) c) as [lastUser |].
  - destruct (strconv.Atoi (User.Id lastUser)) as [last |] eqn:Hparse;
      [| discriminate].
    intros [= <-]. exists last. split; [reflexivity |].
    split; [| reflexivity].
    apply in_int_bounds, (Atoi_in_int _ _ Hparse).
  - intros [= <-]. exists (-1). split; [reflexivity |].
    split; [| reflexivity]. unfold strconv.MinInt, strconv.MaxInt. lia.
Qed.

(** One signup under the rule "Incremental". *)
Lemma Signup_incremental_one (ctx : Ctx) (c c' : World) (u : User.t)
    (form : RequestForm.t) (application : Application.t) :
  Signup ctx c = Returned c' ->
  created_user c c' u ->
  json_Unmarshal (RequestBody ctx) = Some form ->
  GetApplication ("admin/" +:+ RequestForm.Application form)
  = Some application ->
  Application.GetSignupItemRule application "ID" = "Incremental" ->
  User.Owner u = RequestForm.Organization form /\
  exists last,
    last_value (RequestForm.Organization form) c last /\
    User.Id u = strconv.Itoa (strconv.add last 1) /\
    strconv.Atoi (User.Id u) = Some (strconv.add last 1) /\
    (last < strconv.MaxInt -> strconv.add last 1 = last + 1).
Proof.
  intros Hrun Hc Hform Happ Hrule.
  destruct (Signup_created_inv ctx c c' u Hrun Hc)
    as (form' & application' & organization & id & Hres & _ & _ & _ & Hid
        & Hu & _).
  destruct (resolves_same _ _ _ _ _ _ Hres Hform Happ) as [-> ->].
  destruct (newUser_identity form application organization
              (chosen_name form application id) id c) as (Howner & _ & Hid').
  rewrite <- Hu in Howner, Hid'.
  split; [exact Howner |].
  unfold allocated in Hid. rewrite Hrule in Hid.
  change (String.eqb "Incremental" "Incremental") with true in Hid.
  cbv iota in Hid.
  destruct (incrementalId_value form c id Hid) as (last & Hlast & Hb & ->).
  exists last. split; [exact Hlast |]. split; [exact Hid' |].
  split.
  - rewrite Hid'. apply Atoi_Itoa, in_int_wrap64.
  - intros Hlt. apply add_one_small. lia.
Qed.

(** The value of the identifier an incremental signup has given, and the
    last user of the organization after it. *)
Lemma incremental_signup_value (org : string) (s : SignupStep) :
  incremental_signup org s ->
  GetLastUser org (step_after s) = Some (step_user s) /\
  exists n, strconv.Atoi (User.Id (step_user s)) = Some n.
Proof.
  intros (form & application & Hrun & Hc & Hform & Happ & Hrule & Horg).
  destruct (Signup_incremental_one _ _ _ _ form application
              Hrun Hc Hform Happ Hrule)
    as (Howner & last & _ & _ & Hn & _).
  split.
  - unfold GetLastUser. rewrite Hc. cbn [find].
    rewrite Howner, Horg, String.eqb_refl. reflexivity.
  - exists (strconv.add last 1). exact Hn.
Qed.

(** The next incremental signup of the organization counts from the
    identifier of the one before. *)
Lemma incremental_signup_next (org : string) (s s' : SignupStep) (n : Z) :
  incremental_signup org s ->
  strconv.Atoi (User.Id (step_user s)) = Some n ->
  follows org s s' ->
  incremental_signup org s' ->
  strconv.Atoi (User.Id (step_user s')) = Some (strconv.add n 1) /\
  (n < strconv.MaxInt -> strconv.add n 1 = n + 1).
Proof.
  intros Hs Hn Hfollows
         (form & application & Hrun & Hc & Hform & Happ & Hrule & Horg).
  destruct (incremental_signup_value org s Hs) as [Hlast _].
  destruct (Signup_incremental_one _ _ _ _ form application
              Hrun Hc Hform Happ Hrule)
    as (_ & last & Hvalue & _ & Hn' & Hsmall).
  unfold last_value in Hvalue. rewrite Horg in Hvalue.
  unfold follows in Hfollows. rewrite Hfollows, Hlast in Hvalue.
  assert (last = n) by congruence. subst last.
  split; assumption.
Qed.

(** A run of incremental signups counts up from its first identifier. *)
Lemma sequential_values (org : string) (rest : list SignupStep) :
  forall (s : SignupStep) (n : Z),
    incremental_signup org s ->
    strconv.Atoi (User.Id (step_user s)) = Some n ->
    sequential org s rest ->
    forall (i : nat) (s' : SignupStep),
      rest !! i = Some s' ->
      n + Z.of_nat (S i) <= strconv.MaxInt ->
      strconv.Atoi (User.Id (step_user s')) = Some (n + Z.of_nat (S i)).
Proof.
  induction rest as [| s1 rest IH]; intros s n Hs Hn Hseq i s' Hi Hbound.
  - discriminate.
  - destruct Hseq as (Hfollows & Hs1 & Hseq).
    destruct (incremental_signup_next org s s1 n Hs Hn Hfollows Hs1)
      as [Hn1 Hsmall].
    rewrite Hsmall in Hn1 by lia.
    destruct i as [| i].
    + cbn in Hi. injection Hi as <-. rewrite Hn1. apply f_equal. lia.
    + cbn in Hi.
      rewrite (IH s1 (n + 1) Hs1 Hn1 Hseq i s' Hi) by lia.
      apply f_equal. lia.
Qed.

(** C3.  Under the ID rule "Incremental" the identifier of the created
    user is the decimal string of the integer value of the identifier of
    the most recently created user of the organization (-1 when there is
    none) plus one, the sum being that of a 64-bit [int]: it is the exact
    sum whenever the value is below [2 ^ 63 - 1].  Hence, when a signup
    of an organization under the rule is followed by another one, with
    whatever happens in between as long as the last user of the
    organization stays the same (a logout, requests that are turned down,
    signups of other organizations), the identifiers are [n] and [n + 1]
    as long as [n] is below [2 ^ 63 - 1]; and in a run of such signups
    the identifiers are [n], [n + 1], [n + 2] and so on, strictly
    increasing, as long as they do not exceed [2 ^ 63 - 1]. *)
Theorem Signup_incremental :
  (forall (ctx : Ctx) (c c' : World) (u : User.t) (form : RequestForm.t)
          (application : Application.t),
      Signup ctx c = Returned c' ->
      created_user c c' u ->
      json_Unmarshal (RequestBody ctx) = Some form ->
      GetApplication ("admin/" +:+ RequestForm.Application form)
      = Some application ->
      Application.GetSignupItemRule application "ID" = "Incremental" ->
      exists last,
        last_value (RequestForm.Organization form) c last /\
        User.Id u = strconv.Itoa (strconv.add last 1) /\
        (last < strconv.MaxInt -> User.Id u = strconv.Itoa (last + 1))) /\
  (forall (ctx1 ctx2 : Ctx) (c0 c1 c1' c2 : World) (u1 u2 : User.t)
          (form1 form2 : RequestForm.t) (app1 app2 : Application.t),
      Signup ctx1 c0 = Returned c1 ->
      created_user c0 c1 u1 ->
      GetLastUser (RequestForm.Organization form1) c1'
      = GetLastUser (RequestForm.Organization form1) c1 ->
      Signup ctx2 c1' = Returned c2 ->
      created_user c1' c2 u2 ->
      json_Unmarshal (RequestBody ctx1) = Some form1 ->
      GetApplication ("admin/" +:+ RequestForm.Application form1)
      = Some app1 ->
      Application.GetSignupItemRule app1 "ID" = "Incremental" ->
      json_Unmarshal (RequestBody ctx2) = Some form2 ->
      GetApplication ("admin/" +:+ RequestForm.Application form2)
      = Some app2 ->
      Application.GetSignupItemRule app2 "ID" = "Incremental" ->
      RequestForm.Organization form2 = RequestForm.Organization form1 ->
      exists n1 n2,
        strconv.Atoi (User.Id u1) = Some n1 /\
        strconv.Atoi (User.Id u2) = Some n2 /\
        (n1 < strconv.MaxInt -> n2 = n1 + 1 /\ n1 < n2)) /\
  (forall (org : string) (s : SignupStep) (rest : list SignupStep),
      incremental_signup org s ->
      sequential org s rest ->
      exists n,
        strconv.Atoi (User.Id (step_user s)) = Some n /\
        forall (i : nat) (s' : SignupStep),
          rest !! i = Some s' ->
          n + Z.of_nat (S i) <= strconv.MaxInt ->
          strconv.Atoi (User.Id (step_user s'))
          = Some (n + Z.of_nat (S i))).
Proof.
  split; [| split].
  - intros ctx c c' u form application Hrun Hc Hform Happ Hrule.
    destruct (Signup_incremental_one ctx c c' u form application
                Hrun Hc Hform Happ Hrule)
      as (_ & last & Hlast & Hid & _ & Hsmall).
    exists last. split; [exact Hlast |]. split; [exact Hid |].
    intros Hlt. rewrite Hid, (Hsmall Hlt). reflexivity.
  - intros ctx1 ctx2 c0 c1 c1' c2 u1 u2 form1 form2 app1 app2
           Hrun1 Hc1 Hsame Hrun2 Hc2 Hform1 Happ1 Hrule1 Hform2 Happ2 Hrule2
           Horg.
    assert (Hs1 : incremental_signup (RequestForm.Organization form1)
                    (mkStep ctx1 c0 c1 u1)).
    { exists form1, app1. repeat split; assumption. }
    assert (Hs2 : incremental_signup (RequestForm.Organization form1)
                    (mkStep ctx2 c1' c2 u2)).
    { exists form2, app2. repeat split; assumption. }
    destruct (incremental_signup_value _ _ Hs1) as [_ [n1 Hn1]].
    destruct (incremental_signup_next (RequestForm.Organization form1)
                (mkStep ctx1 c0 c1 u1) (mkStep ctx2 c1' c2 u2) n1
                Hs1 Hn1 Hsame Hs2)
      as [Hn2 Hsmall].
    exists n1, (strconv.add n1 1).
    split; [exact Hn1 |]. split; [exact Hn2 |].
    intros Hlt. rewrite (Hsmall Hlt). lia.
  - intros org s rest Hs Hseq.
    destruct (incremental_signup_value org s Hs) as [_ [n Hn]].
    exists n. split; [exact Hn |].
    exact (sequential_values org rest s n Hs Hn Hseq).
Qed.

End Incremental.

(** Lin, Mei and Noa sign up one after the other through an application
    that counts identifiers and has a prompt page, each logging out
    before the next signs up: they get the identifiers 0, 1 and 2. *)
Lemma Signup_incremental_witness :
  Application.HasPromptPage Scenario.app_prompt = true /\
  session_username Scenario.after_lin = "org/lin" /\
  User.Id (step_user Scenario.step_lin) = "0" /\
  User.Id (step_user Scenario.step_mei) = "1" /\
  User.Id (step_user Scenario.step_noa) = "2" /\
  (exists last,
      last_value "org" (Demo.server [] ∅) last /\
      User.Id (step_user Scenario.step_lin)
      = strconv.Itoa (strconv.add last 1) /\
      (last < strconv.MaxInt ->
       User.Id (step_user Scenario.step_lin) = strconv.Itoa (last + 1))) /\
  (exists n1 n2,
      strconv.Atoi (User.Id (step_user Scenario.step_lin)) = Some n1 /\
      strconv.Atoi (User.Id (step_user Scenario.step_mei)) = Some n2 /\
      (n1 < strconv.MaxInt -> n2 = n1 + 1 /\ n1 < n2)) /\
  (exists n,
      strconv.Atoi (User.Id (step_user Scenario.step_lin)) = Some n /\
      forall (i : nat) (s' : SignupStep),
        [Scenario.step_mei; Scenario.step_noa] !! i = Some s' ->
        n + Z.of_nat (S i) <= strconv.MaxInt ->
        strconv.Atoi (User.Id (step_user s')) = Some (n + Z.of_nat (S i))).
Proof.
  assert (Hlin : @incremental_signup Scenario.prompting "org"
                   Scenario.step_lin).
  { exists (Demo.form "app-prompt" "lin" "Lin" "" "" "" ""),
           Scenario.app_prompt.
    split; [vm_compute; reflexivity |]. split; [vm_compute; reflexivity |].
    repeat split. }
  assert (Hmei : @incremental_signup Scenario.prompting "org"
                   Scenario.step_mei).
  { exists (Demo.form "app-prompt" "mei" "Mei" "" "" "" ""),
           Scenario.app_prompt.
    split; [vm_compute; reflexivity |]. split; [vm_compute; reflexivity |].
    repeat split. }
  assert (Hnoa : @incremental_signup Scenario.prompting "org"
                   Scenario.step_noa).
  { exists (Demo.form "app-prompt" "noa" "Noa" "" "" "" ""),
           Scenario.app_prompt.
    split; [vm_compute; reflexivity |]. split; [vm_compute; reflexivity |].
    repeat split. }
  assert (Hlm : follows "org" Scenario.step_lin Scenario.step_mei)
    by (vm_compute; reflexivity).
  assert (Hmn : follows "org" Scenario.step_mei Scenario.step_noa)
    by (vm_compute; reflexivity).
  destruct (@Signup_incremental Scenario.prompting) as (Hone & Htwo & Hrun).
  split; [reflexivity |].
  split; [vm_compute; reflexivity |].
  split; [vm_compute; reflexivity |].
  split; [vm_compute; reflexivity |].
  split; [vm_compute; reflexivity |].
  split; [| split].
  - apply (Hone (Demo.request "lin") (Demo.server [] ∅) Scenario.after_lin
             (step_user Scenario.step_lin)
             (Demo.form "app-prompt" "lin" "Lin" "" "" "" "")
             Scenario.app_prompt).
    + vm_compute; reflexivity.
    + vm_compute; reflexivity.
    + reflexivity.
    + reflexivity.
    + reflexivity.
  - apply (Htwo (Demo.request "lin") (Demo.request "mei")
             (Demo.server [] ∅) Scenario.after_lin Scenario.lin_gone
             Scenario.after_mei
             (step_user Scenario.step_lin) (step_user Scenario.step_mei)
             (Demo.form "app-prompt" "lin" "Lin" "" "" "" "")
             (Demo.form "app-prompt" "mei" "Mei" "" "" "" "")
             Scenario.app_prompt Scenario.app_prompt).
    + vm_compute; reflexivity.
    + vm_compute; reflexivity.
    + vm_compute; reflexivity.
    + vm_compute; reflexivity.
    + vm_compute; reflexivity.
    + reflexivity.
    + reflexivity.
    + reflexivity.
    + reflexivity.
    + reflexivity.
    + reflexivity.
    + reflexivity.
  - apply (Hrun "org" Scenario.step_lin
             [Scenario.step_mei; Scenario.step_noa] Hlin).
    cbn [sequential]. repeat split; assumption.
Defined.

(** Where the sum leaves the range of [int]: after the identifier
    [2 ^ 63 - 1] comes [- 2 ^ 63], which is neither the decimal string of
    [2 ^ 63] nor a larger identifier. *)
Lemma Signup_incremental_overflow :
  exists c1 u1 c2 u2 n1 n2,
    @Signup Demo.plain (Demo.request "ada")
      (Demo.server [Demo.member "max" "9223372036854775806"] ∅)
    = Returned c1 /\
    created_user (Demo.server [Demo.member "max" "9223372036854775806"] ∅)
                 c1 u1 /\
    @Signup Demo.plain (Demo.request "bob") c1 = Returned c2 /\
    created_user c1 c2 u2 /\
    Application.GetSignupItemRule Demo.app_a "ID" = "Incremental" /\
    GetLastUser "org" c1 = Some u1 /\
    strconv.Atoi (User.Id u1) = Some n1 /\
    strconv.Atoi (User.Id u2) = Some n2 /\
    User.Id u2 = "-9223372036854775808" /\
    User.Id u2 <> strconv.FormatInt (n1 + 1) /\
    ~ n1 < n2.
Proof.
  eexists. eexists. eexists. eexists. eexists. eexists.
  split; [vm_compute; reflexivity |].
  split; [reflexivity |].
  split; [vm_compute; reflexivity |].
  split; [reflexivity |].
  split; [reflexivity |].
  split; [reflexivity |].
  split; [vm_compute; reflexivity |].
  split; [vm_compute; reflexivity |].
  split; [reflexivity |].
  split; [vm_compute; discriminate |].
  vm_compute. intros Hlt. discriminate Hlt.
Qed.

(* ===================================================================== *)
(** * Signup: applications and organizations that do not exist *)
(* ===================================================================== *)

Section SignupMissing.

Context `{Collaborators}.

(** [GetApplication] returned [nil]: line 107 reads a field of it. *)
Lemma Signup_nil_application (ctx : Ctx) (c : World) (form : RequestForm.t) :
  GetSessionUsername c = "" ->
  json_Unmarshal (RequestBody ctx) = Some form ->
  GetApplication ("admin/" +:+ RequestForm.Application form) = None ->
  Signup ctx c = Panicked c.
Proof.
  intros Huser Hform Happ. unfold Signup.
  rewrite (eqb_empty_true _ Huser). cbn [negb].
  rewrite Hform, Happ. reflexivity.
Qed.

(** [GetOrganization] returned [nil]: the request is answered with the
    message of [CheckUserSignup] when there is one, and otherwise ends in
    a panic or an error of a verification code; no user is created. *)
Lemma Signup_nil_organization (ctx : Ctx) (c c' : World) (u : User.t)
    (form : RequestForm.t) (application : Application.t) :
  resolves ctx c form application ->
  GetOrganization ("admin/" +:+ RequestForm.Organization form) = None ->
  Signup ctx c = Returned c' ->
  ~ created_user c c' u.
Proof.
  intros Hres Horg Hrun Hc.
  destruct (Signup_created_inv ctx c c' u Hrun Hc)
    as (form' & application' & organization & id & Hres' & _ & _ & Horg'
        & _).
  destruct Hres as (_ & Hform & Happ).
  destruct (resolves_same _ _ _ _ _ _ Hres' Hform Happ) as [-> ->].
  congruence.
Qed.

End SignupMissing.

(** C2.  The signup "ghost" names an application that does not exist and
    comes from a caller who is not signed in: [Signup] panics, it serves
    no error. *)
Theorem Signup_unknown_application_panics :
  @json_Unmarshal Demo.plain "ghost"
  = Some (Demo.form "ghost" "zed" "Zed" "" "" "" "") /\
  @GetApplication Demo.plain "admin/ghost" = None /\
  @Signup Demo.plain (Demo.request "ghost") (Demo.server [] ∅)
  = Panicked (Demo.server [] ∅).
Proof.
  split; [reflexivity |]. split; [reflexivity |].
  apply (@Signup_nil_application Demo.plain (Demo.request "ghost")
           (Demo.server [] ∅) (Demo.form "ghost" "zed" "Zed" "" "" "" ""));
    reflexivity.
Qed.

(* ===================================================================== *)
(** * Signup: the verification codes that are disabled *)
(* ===================================================================== *)

Section SignupCodes.

Context `{Collaborators}.

(** After a signup that created a user, the codes of the submitted email
    and of the checked phone are disabled, and no other. *)
Lemma Signup_disables (ctx : Ctx) (c c' : World) (u : User.t)
    (form : RequestForm.t) (application : Application.t) :
  Signup ctx c = Returned c' ->
  created_user c c' u ->
  json_Unmarshal (RequestBody ctx) = Some form ->
  GetApplication ("admin/" +:+ RequestForm.Application form)
  = Some application ->
  verification c'
  = verification
      (DisableVerificationCode (checked_phone form application)
         (DisableVerificationCode (RequestForm.Email form) c)).
Proof.
  intros Hrun Hc Hform Happ.
  destruct (Signup_created_inv ctx c c' u Hrun Hc)
    as (form' & application' & organization & id & Hres & _ & _ & _ & _
        & _ & Hstore).
  destruct (resolves_same _ _ _ _ _ _ Hres Hform Happ) as [-> ->].
  destruct (Signup_store_created _ _ _ _ _ _ _ _ Hstore Hc) as [_ Hadd].
  unfold Signup_store in Hstore. rewrite Hadd in Hstore.
  cbn [negb] in Hstore. injection Hstore as <-.
  unfold DisableVerificationCode.
  destruct (Application.HasPromptPage application);
    destruct (String.eqb (RequestForm.Email form) "");
    destruct (String.eqb (checked_phone form application) "");
    reflexivity.
Qed.

(** The code of every other target is kept. *)
Lemma Signup_keeps_other_codes (ctx : Ctx) (c c' : World) (u : User.t)
    (form : RequestForm.t) (application : Application.t) (target : string) :
  Signup ctx c = Returned c' ->
  created_user c c' u ->
  json_Unmarshal (RequestBody ctx) = Some form ->
  GetApplication ("admin/" +:+ RequestForm.Application form)
  = Some application ->
  target <> RequestForm.Email form ->
  target <> checked_phone form application ->
  verification c' !! target = verification c !! target.
Proof.
  intros Hrun Hc Hform Happ Hmail Hphone.
  rewrite (Signup_disables ctx c c' u form application Hrun Hc Hform Happ).
  unfold DisableVerificationCode.
  destruct (String.eqb (RequestForm.Email form) "");
    destruct (String.eqb (checked_phone form application) "");
    cbn; rewrite ?lookup_delete_ne by congruence; reflexivity.
Qed.

End SignupCodes.

(** C9.  The signup "eve" goes through an application that does not show
    the field "Email", so the email code is not checked; the request
    carries an email all the same, and the outstanding code of that email
    is disabled. *)
Theorem Signup_disables_unchecked_email :
  Application.IsSignupItemVisible Demo.app_b "Email" = false /\
  exists c',
    @Signup Demo.plain (Demo.request "eve")
      (Demo.server [] (<["eve@example.org" := "1234"]> ∅))
    = Returned c' /\
    output c' = [Some (ok_response
                         [anyString
                            "org/8b2c7f7e-0d3a-4b52-9d0e-5f1c6a7e9b10"])] /\
    verification (Demo.server [] (<["eve@example.org" := "1234"]> ∅))
      !! "eve@example.org" = Some "1234" /\
    verification c' !! "eve@example.org" = None.
Proof.
  split; [reflexivity |].
  eexists. split; [vm_compute; reflexivity |].
  split; [reflexivity |]. split; vm_compute; reflexivity.
Qed.

(* ===================================================================== *)
(** * GetUserinfo *)
(* ===================================================================== *)

Section UserinfoHandler.

Context `{Collaborators}.

(** When [GetUserInfo] returns an error, the error is served and then,
    line 289 being reached all the same, the claims are served too. *)
Lemma GetUserinfo_error_falls_through (ctx : Ctx) (c : World)
    (resp : option Userinfo.t) (err : string) :
  GetSessionUsername c <> "" ->
  GetUserInfo (users c) (GetSessionUsername c) (fst (GetSessionOidc c))
              (snd (GetSessionOidc c)) (Host ctx)
  = (resp, Some err) ->
  exists c',
    GetUserinfo ctx c = Returned c' /\
    output c'
    = (output c ++ [Some (error_response err []); Some (PUserinfo resp)])%list.
Proof.
  intros Huser Hinfo. unfold GetUserinfo, RequireSignedIn.
  rewrite (eqb_empty_false _ Huser). cbn [negb].
  destruct (GetSessionOidc c) as [scope aud]. cbn [fst snd] in Hinfo.
  rewrite Hinfo. eexists. split; [reflexivity |].
  cbn. rewrite <- app_assoc. reflexivity.
Qed.

End UserinfoHandler.

(** C4.  The caller is signed in as "org/ada", a user the claim assembly
    does not find: [GetUserinfo] serves the error and, after it, a claims
    payload. *)
Theorem GetUserinfo_serves_twice :
  exists c',
    @GetUserinfo Demo.plain (Demo.request "")
      (Demo.signed_in "org/ada" None)
    = Returned c' /\
    output c'
    = [Some (error_response "the user does not exist" []);
       Some (PUserinfo None)].
Proof.
  destruct (@GetUserinfo_error_falls_through Demo.plain (Demo.request "")
              (Demo.signed_in "org/ada" None) None
              "the user does not exist")
    as (c' & Hrun & Hout).
  - discriminate.
  - reflexivity.
  - exists c'. split; [exact Hrun | exact Hout].
Qed.

(* ===================================================================== *)
(** * GetHumanCheck *)
(* ===================================================================== *)

Section HumanCheckHandler.

Context `{Collaborators}.

(** C5.  [GetHumanCheck] serves one descriptor and does nothing else.
    When a default provider is configured, the descriptor is the default
    one, of type "none", whatever the provider is; when none is
    configured, it is of type "captcha" and carries the identifier and the
    image that [GetCaptcha] has produced. *)
Theorem GetHumanCheck_descriptor (ctx : Ctx) (c : World) :
  exists c',
    GetHumanCheck ctx c = Returned c' /\
    answered_only c c'
      (PHumanCheck
         match GetDefaultHumanCheckProvider with
         | Some _ => HumanCheck.mk "none" "" "" "" anyNil
         | None =>
             let generated :=
               GetCaptcha
                 (set_Data_json
                    (Some (PHumanCheck
                             (HumanCheck.mk "none" "" "" "" anyNil))) c) in
             HumanCheck.mk "captcha" "" "" (fst generated) (snd generated)
         end).
Proof.
  unfold GetHumanCheck. cbv zeta.
  destruct GetDefaultHumanCheckProvider as [provider |].
  - eexists. split; [reflexivity |]. unfold answered_only. repeat split.
  - destruct (GetCaptcha _) as [id img] eqn:Hcap.
    eexists. split; [reflexivity |]. unfold answered_only. repeat split.
Qed.

End HumanCheckHandler.

(** With the provider "Aliyun Captcha" configured the descriptor served is
    of type "none", which is not the type of the provider. *)
Lemma GetHumanCheck_ignores_provider :
  @GetDefaultHumanCheckProvider Demo.with_provider = Some Demo.aliyun /\
  exists c' h,
    @GetHumanCheck Demo.with_provider (Demo.request "") (Demo.server [] ∅)
    = Returned c' /\
    output c' = [Some (PHumanCheck h)] /\
    HumanCheck.Type_ h = "none" /\
    HumanCheck.Type_ h <> Provider.Type_ Demo.aliyun.
Proof.
  split; [reflexivity |].
  eexists. eexists. split; [reflexivity |].
  split; [reflexivity |]. split; [reflexivity | discriminate].
Qed.

(* ===================================================================== *)
(** * Logout *)
(* ===================================================================== *)

Section LogoutHandler.

Context `{Collaborators}.

(** C8.  [Logout] always returns, and then the user name of the session
    is empty and the data of the session is gone, both of them; it
    answers ok with the user name the session had before, and with a
    redirect target that is absent exactly when the session had no
    application, or the built-in one, or one without a homepage, and that
    is the homepage of the application otherwise. *)
Theorem Logout_clears_and_redirects (ctx : Ctx) (c : World) :
  exists c' redirect,
    Logout ctx c = Returned c' /\
    session_username c' = "" /\
    session_data c' = None /\
    output c'
    = (output c
       ++ [Some (PResponse
                   (Response.mk "ok" "" "" ""
                                (anyString (session_username c))
                                redirect))])%list /\
    (redirect = anyNil <-> no_homepage (GetSessionApplication c)) /\
    (~ no_homepage (GetSessionApplication c) ->
     exists application,
       GetSessionApplication c = Some application /\
       redirect = anyString (Application.HomepageUrl application)).
Proof.
  unfold Logout. cbv zeta.
  change (GetSessionApplication (LogInfo _ c))
    with (GetSessionApplication c).
  destruct (GetSessionApplication c) as [application |].
  - destruct (String.eqb (Application.Name application) "app-built-in")
      eqn:Hname.
    + exists (ResponseOk [anyString (GetSessionUsername c)]
                (SetSessionData None
                   (SetSessionUsername ""
                      (LogInfo ("API: [" +:+ GetSessionUsername c
                                +:+ "] logged out") c)))), anyNil.
      cbn [orb]. split; [reflexivity |]. repeat split.
      * intros _. left. apply String.eqb_eq, Hname.
      * intros Hnot. exfalso. apply Hnot. left.
        apply String.eqb_eq, Hname.
    + destruct (String.eqb (Application.HomepageUrl application) "")
        eqn:Hhome; cbn [orb].
      * eexists. exists anyNil. split; [reflexivity |]. repeat split.
        -- intros _. right. apply String.eqb_eq, Hhome.
        -- intros Hnot. exfalso. apply Hnot. right.
           apply String.eqb_eq, Hhome.
      * eexists. exists (anyString (Application.HomepageUrl application)).
        split; [reflexivity |]. repeat split.
        -- discriminate.
        -- intros [Hb | Hh].
           ++ apply String.eqb_neq in Hname. contradiction.
           ++ apply String.eqb_neq in Hhome. contradiction.
        -- exists application. split; reflexivity.
  - eexists. exists anyNil. split; [reflexivity |]. repeat split.
    intros Hnot. exfalso. apply Hnot. exact I.
Qed.

End LogoutHandler.

(* ===================================================================== *)
(** * Signup: what a created user leaves behind *)
(* ===================================================================== *)

Section SignupEffects.

Context `{Collaborators}.

(** The state after a signup that created [u]. *)
Lemma Signup_created_effects (ctx : Ctx) (c c' : World) (u : User.t)
    (form : RequestForm.t) (application : Application.t) :
  Signup ctx c = Returned c' ->
  created_user c c' u ->
  json_Unmarshal (RequestBody ctx) = Some form ->
  GetApplication ("admin/" +:+ RequestForm.Application form)
  = Some application ->
  original_db c' = u :: original_db c /\
  session_username c'
  = (if Application.HasPromptPage application
     then User_GetId u else session_username c) /\
  session_data c' = session_data c /\
  records c'
  = (records c
     ++ [AuditRecord.mk (AuditRecord.Request (NewRecord ctx))
                        (Application.Organization application)
                        (User.Name u)])%list /\
  logs c'
  = (logs c
     ++ ["API: [" +:+ (User.Owner u +:+ "/" +:+ User.Name u)
         +:+ "] is signed up as new user"])%list /\
  output c'
  = (output c
     ++ [Some (ok_response
                 [anyString (User.Owner u +:+ "/" +:+ User.Name u)])])%list.
Proof.
  intros Hrun Hc Hform Happ.
  destruct (Signup_created_inv ctx c c' u Hrun Hc)
    as (form' & application' & organization & id & Hres & _ & _ & _ & _
        & _ & Hstore).
  destruct (resolves_same _ _ _ _ _ _ Hres Hform Happ) as [-> ->].
  destruct (Signup_store_created _ _ _ _ _ _ _ _ Hstore Hc) as [_ Hadd].
  unfold Signup_store in Hstore. rewrite Hadd in Hstore.
  cbn [negb] in Hstore. injection Hstore as <-.
  unfold DisableVerificationCode.
  destruct (Application.HasPromptPage application);
    destruct (String.eqb (RequestForm.Email form) "");
    destruct (String.eqb (checked_phone form application) "");
    repeat split.
Qed.

(** X1.  A signup that created a user answers once, with status ok and
    the identifier "<organization of the form>/<name of the record>" as
    data, and writes the log line of that identifier. *)
Theorem Signup_answers_user_id (ctx : Ctx) (c c' : World) (u : User.t)
    (form : RequestForm.t) (application : Application.t) :
  Signup ctx c = Returned c' ->
  created_user c c' u ->
  json_Unmarshal (RequestBody ctx) = Some form ->
  GetApplication ("admin/" +:+ RequestForm.Application form)
  = Some application ->
  output c'
  = (output c
     ++ [Some (PResponse
                 (Response.mk "ok" "" "" ""
                    (anyString (RequestForm.Organization form +:+ "/"
                                +:+ User.Name u)) anyNil))])%list
  /\
  logs c'
  = (logs c
     ++ ["API: [" +:+ (RequestForm.Organization form +:+ "/"
                       +:+ User.Name u)
         +:+ "] is signed up as new user"])%list.
Proof.
  intros Hrun Hc Hform Happ.
  destruct (Signup_created_effects ctx c c' u form application
              Hrun Hc Hform Happ) as (_ & _ & _ & _ & Hlog & Hout).
  destruct (Signup_created_inv ctx c c' u Hrun Hc)
    as (form' & application' & organization & id & Hres & _ & _ & _ & _
        & Hu & _).
  destruct (resolves_same _ _ _ _ _ _ Hres Hform Happ) as [-> ->].
  destruct (newUser_identity form application organization
              (chosen_name form application id) id c) as (Howner & _ & _).
  rewrite <- Hu in Howner. rewrite <- Howner.
  split; [exact Hout | exact Hlog].
Qed.

(** X2.  A signup that created a user signs the caller in as that user
    ([user.GetId()]) when the application has a prompt page, and leaves
    the user name of the session as it was otherwise; the data of the
    session is kept in both cases. *)
Theorem Signup_opens_session (ctx : Ctx) (c c' : World) (u : User.t)
    (form : RequestForm.t) (application : Application.t) :
  Signup ctx c = Returned c' ->
  created_user c c' u ->
  json_Unmarshal (RequestBody ctx) = Some form ->
  GetApplication ("admin/" +:+ RequestForm.Application form)
  = Some application ->
  (Application.HasPromptPage application = true ->
   session_username c' = User_GetId u) /\
  (Application.HasPromptPage application = false ->
   session_username c' = "") /\
  session_data c' = session_data c.
Proof.
  intros Hrun Hc Hform Happ.
  destruct (Signup_created_effects ctx c c' u form application
              Hrun Hc Hform Happ) as (_ & Hname & Hdata & _).
  destruct (Signup_created_inv ctx c c' u Hrun Hc)
    as (form' & application' & organization & id & (Hnobody & _) & _).
  unfold GetSessionUsername in Hnobody.
  split; [| split; [| exact Hdata]]; intros Hpage;
    rewrite Hpage in Hname; congruence.
Qed.

(** X3.  A signup that created a user puts the same record in front of
    the replica and appends one audit record, whose organization is the
    organization of the application (not that of the form) and whose user
    is the name of the record. *)
Theorem Signup_replicates_and_records (ctx : Ctx) (c c' : World)
    (u : User.t) (form : RequestForm.t) (application : Application.t) :
  Signup ctx c = Returned c' ->
  created_user c c' u ->
  json_Unmarshal (RequestBody ctx) = Some form ->
  GetApplication ("admin/" +:+ RequestForm.Application form)
  = Some application ->
  original_db c' = u :: original_db c /\
  exists record,
    records c' = (records c ++ [record])%list /\
    AuditRecord.Request record = AuditRecord.Request (NewRecord ctx) /\
    AuditRecord.Organization record = Application.Organization application /\
    AuditRecord.User record = User.Name u.
Proof.
  intros Hrun Hc Hform Happ.
  destruct (Signup_created_effects ctx c c' u form application
              Hrun Hc Hform Happ) as (Hdb & _ & _ & Hrec & _).
  split; [exact Hdb |].
  eexists. split; [exact Hrec |]. repeat split.
Qed.

End SignupEffects.

(** Running a signup of the concrete deployment: the state it returns
    and the user it has put in front of the table. *)
Ltac run_signup E ctx c Hrun Hc :=
  let r := eval vm_compute in (@Signup E ctx c) in
  lazymatch r with
  | Returned ?w =>
      lazymatch eval vm_compute in (users w) with
      | ?u :: _ => exists w, u
      end
  end;
  lazymatch goal with
  | |- ?R /\ ?C /\ _ =>
      assert (Hrun : R) by (vm_compute; reflexivity);
      assert (Hc : C) by reflexivity
  end;
  split; [exact Hrun |]; split; [exact Hc |].

Lemma Signup_answers_user_id_witness :
  exists c' u,
    @Signup Demo.plain (Demo.request "ada") (Demo.server [] ∅)
    = Returned c' /\
    created_user (Demo.server [] ∅) c' u /\
    output c'
    = [Some (PResponse
               (Response.mk "ok" "" "" "" (anyString "org/ada") anyNil))] /\
    logs c' = ["API: [org/ada] is signed up as new user"].
Proof.
  run_signup Demo.plain (Demo.request "ada") (Demo.server [] ∅) Hrun Hc.
  exact (@Signup_answers_user_id Demo.plain _ _ _ _
           (Demo.form "app-a" "ada" "Countess" "Ada" "Lovelace" "" "")
           Demo.app_a Hrun Hc eq_refl eq_refl).
Defined.

(** The application of "eve" has a prompt page: Eve is signed in. *)
Lemma Signup_opens_session_witness :
  exists c' u,
    @Signup Demo.plain (Demo.request "eve") (Demo.server [] ∅)
    = Returned c' /\
    created_user (Demo.server [] ∅) c' u /\
    session_username c' = "org/8b2c7f7e-0d3a-4b52-9d0e-5f1c6a7e9b10" /\
    (Application.HasPromptPage Demo.app_b = true ->
     session_username c' = @User_GetId Demo.plain u).
Proof.
  run_signup Demo.plain (Demo.request "eve") (Demo.server [] ∅) Hrun Hc.
  split; [reflexivity |].
  exact (proj1 (@Signup_opens_session Demo.plain _ _ _ _
                  (Demo.form "app-b" "eve" "Eve" "" "" "eve@example.org" "")
                  Demo.app_b Hrun Hc eq_refl eq_refl)).
Defined.

Lemma Signup_replicates_and_records_witness :
  exists c' u,
    @Signup Demo.plain (Demo.request "ada") (Demo.server [] ∅)
    = Returned c' /\
    created_user (Demo.server [] ∅) c' u /\
    original_db c' = [u] /\
    exists record,
      records c' = [record] /\
      AuditRecord.Request record = "ada" /\
      AuditRecord.Organization record = "org" /\
      AuditRecord.User record = User.Name u.
Proof.
  run_signup Demo.plain (Demo.request "ada") (Demo.server [] ∅) Hrun Hc.
  exact (@Signup_replicates_and_records Demo.plain _ _ _ _
           (Demo.form "app-a" "ada" "Countess" "Ada" "Lovelace" "" "")
           Demo.app_a Hrun Hc eq_refl eq_refl).
Defined.

(* ===================================================================== *)
(** * Signup: the guards of a created user *)
(* ===================================================================== *)

Section SignupGuards.

Context `{Collaborators}.

(** X4.  A user is created only for a caller who is not signed in, through
    an application that allows signup, with fields the validation accepts,
    for an organization that exists, and with a right code for the email
    and for the phone whenever the field is visible and filled in. *)
Theorem Signup_creates_only_checked (ctx : Ctx) (c c' : World) (u : User.t)
    (form : RequestForm.t) (application : Application.t) :
  Signup ctx c = Returned c' ->
  created_user c c' u ->
  json_Unmarshal (RequestBody ctx) = Some form ->
  GetApplication ("admin/" +:+ RequestForm.Application form)
  = Some application ->
  GetSessionUsername c = "" /\
  Application.EnableSignUp application = true /\
  validation c form application = "" /\
  is_Some (GetOrganization ("admin/" +:+ RequestForm.Organization form)) /\
  (email_checked form application -> email_result c form = "") /\
  (phone_checked form application -> phone_result c form = "").
Proof.
  intros Hrun Hc Hform Happ.
  destruct (Signup_created_inv ctx c c' u Hrun Hc)
    as (form' & application' & organization & id & Hres & Hon & Hvalid
        & Horg & _).
  destruct (resolves_same _ _ _ _ _ _ Hres Hform Happ) as [-> ->].
  split; [exact (proj1 Hres) |]. split; [exact Hon |].
  split; [exact Hvalid |]. split; [rewrite Horg; eexists; reflexivity |].
  rewrite (Signup_resolved ctx c form application Hres Hon Hvalid) in Hrun.
  cbv zeta in Hrun.
  split.
  - intros [Hvis Hmail].
    rewrite Hvis, (eqb_empty_false _ Hmail) in Hrun.
    cbn [negb andb] in Hrun.
    destruct (String.eqb (email_result c form) "") eqn:Hcode;
      [apply String.eqb_eq, Hcode |].
    cbn [negb] in Hrun. injection Hrun as <-.
    exfalso. exact (ResponseError_not_created _ _ _ _ Hc).
  - intros [Hvis Hphone].
    destruct (negb (String.eqb _ "")) in Hrun;
      [injection Hrun as <-;
       exfalso; exact (ResponseError_not_created _ _ _ _ Hc) |].
    rewrite Hvis, (eqb_empty_false _ Hphone) in Hrun.
    cbn [negb andb] in Hrun.
    destruct (String.eqb (phone_result c form) "") eqn:Hcode;
      [apply String.eqb_eq, Hcode |].
    cbn [negb] in Hrun. injection Hrun as <-.
    exfalso. exact (ResponseError_not_created _ _ _ _ Hc).
Qed.

(** X5.  Whatever the request, [Signup] does one of three things: it
    panics and leaves the state as it was; or it creates a user; or it
    serves one error and changes nothing else -- no session, no user, no
    replica, no verification code, no audit record, no log line. *)
Theorem Signup_without_user_only_answers (ctx : Ctx) (c : World) :
  match Signup ctx c with
  | Panicked c' => c' = c
  | Returned c' =>
      (exists u, created_user c c' u) \/
      (exists msg data, answered_only c c' (error_response msg data))
  end.
Proof.
  unfold Signup, Signup_create, Signup_store, AddUser, created_user.
  cbv zeta.
  repeat match goal with
         | |- context [match json_Unmarshal ?b with _ => _ end] =>
             destruct (json_Unmarshal b)
         | |- context [match GetApplication ?a with _ => _ end] =>
             destruct (GetApplication a)
         | |- context [match GetOrganization ?a with _ => _ end] =>
             destruct (GetOrganization a)
         | |- context [if existsb ?f ?l then _ else _] =>
             destruct (existsb f l); cbn [negb]
         | |- context [if negb (String.eqb ?x ?y) then _ else _] =>
             destruct (String.eqb x y); cbn [negb]
         | |- context [if negb (Application.EnableSignUp ?a) then _ else _] =>
             destruct (Application.EnableSignUp a); cbn [negb]
         | |- context [match (if ?b then _ else _) with _ => _ end] =>
             destruct b
         | |- context [match incrementalId ?f ?w with _ => _ end] =>
             destruct (incrementalId f w)
         end;
    try reflexivity;
    try (right; eexists; eexists; apply ResponseError_answered_only);
    left; eexists; unfold DisableVerificationCode;
    repeat match goal with
           | |- context [if Application.HasPromptPage ?a then _ else _] =>
               destruct (Application.HasPromptPage a)
           | |- context [if String.eqb ?x "" then _ else _] =>
               destruct (String.eqb x "")
           end; reflexivity.
Qed.

End SignupGuards.

(** Kim signs up with a visible email and a visible phone, and the codes
    that were sent to both. *)
Lemma Signup_creates_only_checked_witness :
  exists c' u,
    @Signup Demo.plain (Demo.request "kim")
      (Demo.server [] Scenario.kim_codes)
    = Returned c' /\
    created_user (Demo.server [] Scenario.kim_codes) c' u /\
    @email_result Demo.plain (Demo.server [] Scenario.kim_codes)
      (Demo.form "app-a" "kim" "Kim" "" "" "kim@example.org" "612345678")
    = "" /\
    @phone_result Demo.plain (Demo.server [] Scenario.kim_codes)
      (Demo.form "app-a" "kim" "Kim" "" "" "kim@example.org" "612345678")
    = "".
Proof.
  run_signup Demo.plain (Demo.request "kim")
             (Demo.server [] Scenario.kim_codes) Hrun Hc.
  destruct (@Signup_creates_only_checked Demo.plain _ _ _ _
              (Demo.form "app-a" "kim" "Kim" "" "" "kim@example.org"
                         "612345678")
              Demo.app_a Hrun Hc eq_refl eq_refl)
    as (_ & _ & _ & _ & Hmail & Hphone).
  split.
  - apply Hmail. split; [reflexivity | discriminate].
  - apply Hphone. split; [reflexivity | discriminate].
Defined.

(* ===================================================================== *)
(** * Signup: the fields of the created record *)
(* ===================================================================== *)

Section SignupRecord.

Context `{Collaborators}.

Ltac record_cases form application organization :=
  unfold newUser;
  destruct (Organization.Tags organization) as [| tags0 ?];
    [| destruct (Split tags0 "|") as [| token0 ?]];
  destruct (String.eqb (Application.GetSignupItemRule application
                                                      "Display name")
                       "First, last");
  destruct (negb (String.eqb (RequestForm.FirstName form) "")
            || negb (String.eqb (RequestForm.LastName form) "")).

Lemma newUser_copied (form : RequestForm.t) (application : Application.t)
    (organization : Organization.t) (username id : string) (c : World) :
  let u := newUser form application organization username id c in
  User.Owner u = RequestForm.Organization form /\
  User.Password u = RequestForm.Password form /\
  User.Email u = RequestForm.Email form /\
  User.Phone u = RequestForm.Phone form /\
  User.Affiliation u = RequestForm.Affiliation form /\
  User.IdCard u = RequestForm.IdCard form /\
  User.Region u = RequestForm.Region form /\
  User.Avatar u = Organization.DefaultAvatar organization /\
  User.SignupApplication u = Application.Name application /\
  User.Score u = getInitScore /\
  User.CreatedTime u = GetCurrentTime c.
Proof.
  cbv zeta. record_cases form application organization; repeat split.
Qed.

Lemma newUser_tag (form : RequestForm.t) (application : Application.t)
    (organization : Organization.t) (username id : string) (c : World) :
  User.Tag (newUser form application organization username id c)
  = match Organization.Tags organization with
    | tags0 :: _ =>
        match Split tags0 "|" with
        | token0 :: _ => token0
        | [] => ""
        end
    | [] => ""
    end.
Proof. record_cases form application organization; reflexivity. Qed.

(** The first part [Split] returns is the text before the first
    separator, or the whole text when it has none. *)
Lemma Split_first (s : string) (sep : ascii) :
  exists t ts,
    Split s sep = t :: ts /\
    free_of sep t /\
    (s = t \/ exists r, s = t +:+ String sep r).
Proof.
  induction s as [| ch r IH].
  - exists "", []. split; [reflexivity |]. split; [| left; reflexivity].
    intros a b. destruct a; discriminate.
  - cbn [Split]. destruct (Ascii.eqb ch sep) eqn:Hch.
    + apply Ascii.eqb_eq in Hch. subst ch.
      exists "", (Split r sep). split; [reflexivity |].
      split; [| right; exists r; reflexivity].
      intros a b. destruct a; discriminate.
    + destruct IH as (t & ts & Heq & Hfree & Hrest). rewrite Heq.
      exists (String ch t), ts. split; [reflexivity |]. split.
      * intros a b Hab. destruct a as [| a0 a].
        -- cbn in Hab. injection Hab as Hc _. subst ch.
           rewrite Ascii.eqb_refl in Hch. discriminate.
        -- cbn in Hab. injection Hab as _ Ht. exact (Hfree a b Ht).
      * destruct Hrest as [-> | (r' & ->)].
        -- left. reflexivity.
        -- right. exists r'. reflexivity.
Qed.

(** X6.  The created record carries what was submitted and what the
    organization and the application give: owner, password, email, phone,
    affiliation, ID card and region are those of the form, the avatar is
    the default avatar of the organization, the signup application is the
    name of the application and the score is the initial score. *)
Theorem Signup_copies_form (ctx : Ctx) (c c' : World) (u : User.t)
    (form : RequestForm.t) (application : Application.t)
    (organization : Organization.t) :
  Signup ctx c = Returned c' ->
  created_user c c' u ->
  json_Unmarshal (RequestBody ctx) = Some form ->
  GetApplication ("admin/" +:+ RequestForm.Application form)
  = Some application ->
  GetOrganization ("admin/" +:+ RequestForm.Organization form)
  = Some organization ->
  User.Owner u = RequestForm.Organization form /\
  User.Password u = RequestForm.Password form /\
  User.Email u = RequestForm.Email form /\
  User.Phone u = RequestForm.Phone form /\
  User.Affiliation u = RequestForm.Affiliation form /\
  User.IdCard u = RequestForm.IdCard form /\
  User.Region u = RequestForm.Region form /\
  User.Avatar u = Organization.DefaultAvatar organization /\
  User.SignupApplication u = Application.Name application /\
  User.Score u = getInitScore /\
  User.CreatedTime u = GetCurrentTime c.
Proof.
  intros Hrun Hc Hform Happ Horg.
  destruct (Signup_created_inv ctx c c' u Hrun Hc)
    as (form' & application' & organization' & id & Hres & _ & _ & Horg'
        & _ & Hu & _).
  destruct (resolves_same _ _ _ _ _ _ Hres Hform Happ) as [-> ->].
  assert (organization' = organization) by congruence. subst organization'.
  subst u. apply newUser_copied.
Qed.

(** X7.  The tag of the created record is the part of the first tag
    group of the organization that stands before its first "|" (the whole
    group when it has none), so it never contains "|"; it is empty when
    the organization has no tag group. *)
Theorem Signup_tag (ctx : Ctx) (c c' : World) (u : User.t)
    (form : RequestForm.t) (organization : Organization.t) :
  Signup ctx c = Returned c' ->
  created_user c c' u ->
  json_Unmarshal (RequestBody ctx) = Some form ->
  GetOrganization ("admin/" +:+ RequestForm.Organization form)
  = Some organization ->
  match Organization.Tags organization with
  | [] => User.Tag u = ""
  | tags0 :: _ =>
      free_of "|" (User.Tag u) /\
      (tags0 = User.Tag u \/ exists r, tags0 = User.Tag u +:+ String "|" r)
  end.
Proof.
  intros Hrun Hc Hform Horg.
  destruct (Signup_created_inv ctx c c' u Hrun Hc)
    as (form' & application & organization' & id & (_ & Hform' & _) & _ & _
        & Horg' & _ & Hu & _).
  assert (form' = form) by congruence. subst form'.
  assert (organization' = organization) by congruence. subst organization'.
  subst u. rewrite newUser_tag.
  destruct (Organization.Tags organization) as [| tags0 rest];
    [reflexivity |].
  destruct (Split_first tags0 "|") as (t & ts & -> & Hfree & Hrest).
  split; assumption.
Qed.

(** X8.  Under any ID rule other than "Incremental" the identifier of the
    created record is the generated one. *)
Theorem Signup_generated_id (ctx : Ctx) (c c' : World) (u : User.t)
    (form : RequestForm.t) (application : Application.t) :
  Signup ctx c = Returned c' ->
  created_user c c' u ->
  json_Unmarshal (RequestBody ctx) = Some form ->
  GetApplication ("admin/" +:+ RequestForm.Application form)
  = Some application ->
  Application.GetSignupItemRule application "ID" <> "Incremental" ->
  User.Id u = GenerateId c.
Proof.
  intros Hrun Hc Hform Happ Hrule.
  destruct (Signup_created_inv ctx c c' u Hrun Hc)
    as (form' & application' & organization & id & Hres & _ & _ & _ & Hid
        & Hu & _).
  destruct (resolves_same _ _ _ _ _ _ Hres Hform Happ) as [-> ->].
  destruct (newUser_identity form application organization
              (chosen_name form application id) id c) as (_ & _ & Hid').
  rewrite <- Hu in Hid'. rewrite Hid'.
  unfold allocated in Hid.
  rewrite (proj2 (String.eqb_neq _ _) Hrule) in Hid. exact Hid.
Qed.

End SignupRecord.

Lemma Signup_copies_form_witness :
  exists c' u,
    @Signup Demo.plain (Demo.request "kim")
      (Demo.server [] Scenario.kim_codes)
    = Returned c' /\
    created_user (Demo.server [] Scenario.kim_codes) c' u /\
    User.Owner u = "org" /\
    User.Password u = "secret" /\
    User.Email u = "kim@example.org" /\
    User.Phone u = "612345678" /\
    User.Affiliation u = "" /\
    User.IdCard u = "" /\
    User.Region u = "" /\
    User.Avatar u = "https://cdn.example.org/avatar.png" /\
    User.SignupApplication u = "app-a" /\
    User.Score u = 2000 /\
    User.CreatedTime u = "2021-12-01T10:00:00Z".
Proof.
  run_signup Demo.plain (Demo.request "kim")
             (Demo.server [] Scenario.kim_codes) Hrun Hc.
  exact (@Signup_copies_form Demo.plain _ _ _ _
           (Demo.form "app-a" "kim" "Kim" "" "" "kim@example.org"
                      "612345678")
           Demo.app_a Demo.org Hrun Hc eq_refl eq_refl eq_refl).
Defined.

(** The first tag group of "org" is "staff|guest". *)
Lemma Signup_tag_witness :
  exists c' u,
    @Signup Demo.plain (Demo.request "ada") (Demo.server [] ∅)
    = Returned c' /\
    created_user (Demo.server [] ∅) c' u /\
    User.Tag u = "staff" /\
    free_of "|" (User.Tag u) /\
    ("staff|guest" = User.Tag u \/
     exists r, "staff|guest" = User.Tag u +:+ String "|" r).
Proof.
  run_signup Demo.plain (Demo.request "ada") (Demo.server [] ∅) Hrun Hc.
  split; [reflexivity |].
  exact (@Signup_tag Demo.plain _ _ _ _
           (Demo.form "app-a" "ada" "Countess" "Ada" "Lovelace" "" "")
           Demo.org Hrun Hc eq_refl eq_refl).
Defined.

Lemma Signup_generated_id_witness :
  exists c' u,
    @Signup Demo.plain (Demo.request "eve") (Demo.server [] ∅)
    = Returned c' /\
    created_user (Demo.server [] ∅) c' u /\
    User.Id u = "8b2c7f7e-0d3a-4b52-9d0e-5f1c6a7e9b10".
Proof.
  run_signup Demo.plain (Demo.request "eve") (Demo.server [] ∅) Hrun Hc.
  refine (@Signup_generated_id Demo.plain _ _ _ _
            (Demo.form "app-b" "eve" "Eve" "" "" "eve@example.org" "")
            Demo.app_b Hrun Hc eq_refl eq_refl _).
  discriminate.
Defined.

(* ===================================================================== *)
(** * Signup: the codes of the created user *)
(* ===================================================================== *)

Section SignupLedger.

Context `{Collaborators}.



End SignupLedger.


(* ===================================================================== *)
(** * Signup: panics *)
(* ===================================================================== *)

Section SignupPanics.

Context `{Collaborators}.




End SignupPanics.


(* ===================================================================== *)
(** * Signup after signup *)
(* ===================================================================== *)

Section SignupTwice.

Context `{Collaborators}.

(** X11.  When a signup through an application with a prompt page has
    created a user, whose identifier [user.GetId()] is not empty, the
    caller is signed in: every further signup of the caller is turned
    down with "Please sign out first before signing up" and that
    identifier as data, and changes nothing. *)
Theorem Signup_twice_rejected (ctx ctx2 : Ctx) (c c' : World) (u : User.t)
    (form : RequestForm.t) (application : Application.t) :
  Signup ctx c = Returned c' ->
  created_user c c' u ->
  json_Unmarshal (RequestBody ctx) = Some form ->
  GetApplication ("admin/" +:+ RequestForm.Application form)
  = Some application ->
  Application.HasPromptPage application = true ->
  User_GetId u <> "" ->
  exists c'',
    Signup ctx2 c' = Returned c'' /\
    answered_only c' c''
      (error_response "Please sign out first before signing up"
                      [anyString (User_GetId u)]).
Proof.
  intros Hrun Hc Hform Happ Hpage Hid.
  destruct (Signup_created_effects ctx c c' u form application
              Hrun Hc Hform Happ) as (_ & Hname & _).
  rewrite Hpage in Hname.
  exists (ResponseError "Please sign out first before signing up"
                        [anyString (User_GetId u)] c').
  split; [| apply ResponseError_answered_only].
  unfold Signup, GetSessionUsername. rewrite Hname.
  rewrite (eqb_empty_false _ Hid). reflexivity.
Qed.

End SignupTwice.

(** Eve has signed up and is signed in; Ada's signup from the same
    session is turned down. *)
Lemma Signup_twice_rejected_witness :
  exists c' u,
    @Signup Demo.plain (Demo.request "eve") (Demo.server [] ∅)
    = Returned c' /\
    created_user (Demo.server [] ∅) c' u /\
    exists c'',
      @Signup Demo.plain (Demo.request "ada") c' = Returned c'' /\
      answered_only c' c''
        (error_response "Please sign out first before signing up"
           [anyString (@User_GetId Demo.plain u)]).
Proof.
  run_signup Demo.plain (Demo.request "eve") (Demo.server [] ∅) Hrun Hc.
  refine (@Signup_twice_rejected Demo.plain _ (Demo.request "ada") _ _ _
            (Demo.form "app-b" "eve" "Eve" "" "" "eve@example.org" "")
            Demo.app_b Hrun Hc eq_refl eq_refl eq_refl _).
  discriminate.
Defined.

(* ===================================================================== *)
(** * Logout, GetUserinfo and GetAccount *)
(* ===================================================================== *)

Section Sessions.

Context `{Collaborators} `{AccountCollaborators}.

(** X12.  [Logout] touches neither the user table, the replica, the
    verification codes nor the audit log; it writes one log line, with
    the user name the session had. *)
Theorem Logout_keeps_stores (ctx : Ctx) (c : World) :
  exists c',
    Logout ctx c = Returned c' /\
    users c' = users c /\
    original_db c' = original_db c /\
    verification c' = verification c /\
    records c' = records c /\
    logs c'
    = (logs c ++ ["API: [" +:+ session_username c +:+ "] logged out"])%list.
Proof.
  unfold Logout. cbv zeta.
  change (GetSessionApplication (LogInfo _ c))
    with (GetSessionApplication c).
  destruct (GetSessionApplication c) as [application |].
  - destruct (String.eqb (Application.Name application) "app-built-in"
              || String.eqb (Application.HomepageUrl application) "");
      eexists; split; try reflexivity; repeat split.
  - eexists; split; try reflexivity; repeat split.
Qed.

(** X13.  [GetUserinfo] is a read: whatever it answers, the session, the
    user table, the replica, the verification codes, the audit log and
    the log lines are kept. *)
Theorem GetUserinfo_read_only (ctx : Ctx) (c : World) :
  exists c', GetUserinfo ctx c = Returned c' /\ same_state c c'.
Proof.
  unfold GetUserinfo, RequireSignedIn.
  destruct (String.eqb (GetSessionUsername c) ""); cbn [negb].
  - eexists. split; [reflexivity |]. unfold same_state. repeat split.
  - destruct (GetSessionOidc c) as [scope aud].
    destruct (GetUserInfo (users c) (GetSessionUsername c) scope aud
                          (Host ctx)) as [resp [err |]];
      eexists; (split; [reflexivity |]); unfold same_state; repeat split.
Qed.

(** X14.  For a signed-in caller whose claims are assembled without an
    error, [GetUserinfo] serves those claims, once, and nothing else. *)
Theorem GetUserinfo_serves_claims (ctx : Ctx) (c : World)
    (resp : option Userinfo.t) :
  GetSessionUsername c <> "" ->
  GetUserInfo (users c) (GetSessionUsername c) (fst (GetSessionOidc c))
              (snd (GetSessionOidc c)) (Host ctx)
  = (resp, None) ->
  exists c',
    GetUserinfo ctx c = Returned c' /\ answered_only c c' (PUserinfo resp).
Proof.
  intros Huser Hinfo. unfold GetUserinfo, RequireSignedIn.
  rewrite (eqb_empty_false _ Huser). cbn [negb].
  destruct (GetSessionOidc c) as [scope aud]. cbn [fst snd] in Hinfo.
  rewrite Hinfo. eexists. split; [reflexivity |].
  unfold answered_only. repeat split.
Qed.

(** X15.  [GetAccount] serves an account only to a signed-in caller; the
    account is the record [GetUser] finds for the user name of the
    session, with its identifier as [Sub], its name as [Name] and the
    organization of the user as [GetMaskedOrganization] returns it, and
    the state is left as it was.  In every other case one error is
    served and nothing else changes: [NotSignedIn] when nobody is signed
    in, "The user: <id> doesn't exist" when the user is not found. *)
Theorem GetAccount_outcome (ctx : Ctx) (c : World) :
  match GetAccount ctx c with
  | Served resp c' =>
      c' = c /\
      session_username c <> "" /\
      GetUser (users c) (session_username c) = Some (AccountResponse.Data resp)
      /\
      AccountResponse.Status resp = "ok" /\
      AccountResponse.Sub resp = User.Id (AccountResponse.Data resp) /\
      AccountResponse.Name resp = User.Name (AccountResponse.Data resp) /\
      AccountResponse.Data2 resp
      = GetMaskedOrganization
          (GetOrganizationByUser (AccountResponse.Data resp))
  | Refused c' =>
      (session_username c = "" /\
       answered_only c c' (error_response NotSignedIn [])) \/
      (session_username c <> "" /\
       GetUser (users c) (session_username c) = None /\
       answered_only c c'
         (error_response
            ("The user: " +:+ session_username c +:+ " doesn't exist") []))
  end.
Proof.
  unfold GetAccount, RequireSignedIn, GetSessionUsername.
  destruct (String.eqb (session_username c) "") eqn:Huser; cbn [negb].
  - left. split; [apply String.eqb_eq, Huser |].
    apply ResponseError_answered_only.
  - apply String.eqb_neq in Huser.
    destruct (GetUser (users c) (session_username c)) as [user |] eqn:Hget.
    + repeat split; assumption.
    + right. split; [exact Huser |]. split; [reflexivity |].
      apply ResponseError_answered_only.
Qed.

(** X16.  After [Logout] the handlers that need a session turn the caller
    down: [GetUserinfo] and [GetAccount] both serve the error
    [NotSignedIn] and nothing else, and a second [Logout] answers with an
    empty user name and no redirect target. *)
Theorem Logout_ends_session (ctx ctx2 : Ctx) (c c1 : World) :
  Logout ctx c = Returned c1 ->
  (exists c2,
      GetUserinfo ctx2 c1 = Returned c2 /\
      answered_only c1 c2 (error_response NotSignedIn [])) /\
  (exists c2,
      GetAccount ctx2 c1 = Refused c2 /\
      answered_only c1 c2 (error_response NotSignedIn [])) /\
  (exists c2,
      Logout ctx2 c1 = Returned c2 /\
      output c2 = (output c1 ++ [Some (ok_response [anyString ""])])%list).
Proof.
  intros Hout.
  assert (Hcleared : session_username c1 = "" /\ session_data c1 = None).
  { unfold Logout in Hout. cbv zeta in Hout.
    destruct (GetSessionApplication _) as [application |];
      [destruct (String.eqb (Application.Name application) "app-built-in"
                 || String.eqb (Application.HomepageUrl application) "") |];
      injection Hout as <-; split; reflexivity. }
  destruct Hcleared as [Hname Hdata].
  split; [| split].
  - exists (ResponseError NotSignedIn [] c1).
    split; [| apply ResponseError_answered_only].
    unfold GetUserinfo, RequireSignedIn, GetSessionUsername.
    rewrite Hname. reflexivity.
  - exists (ResponseError NotSignedIn [] c1).
    split; [| apply ResponseError_answered_only].
    unfold GetAccount, RequireSignedIn, GetSessionUsername.
    rewrite Hname. reflexivity.
  - unfold Logout, GetSessionApplication, GetSessionUsername. cbv zeta.
    change (session_data (LogInfo _ c1)) with (session_data c1).
    rewrite Hdata, Hname. eexists. split; reflexivity.
Qed.

End Sessions.

(** Ada is signed in and is in the user table: her claims are served. *)
Lemma GetUserinfo_serves_claims_witness :
  exists c',
    @GetUserinfo Demo.plain (Demo.request "")
      (Scenario.session "org/ada" [Demo.member "ada" "0"])
    = Returned c' /\
    answered_only (Scenario.session "org/ada" [Demo.member "ada" "0"]) c'
      (PUserinfo
         (Some (Userinfo.mk "org/ada" "door.example.org" "client-1" []))).
Proof.
  apply (@GetUserinfo_serves_claims Demo.plain (Demo.request "")
           (Scenario.session "org/ada" [Demo.member "ada" "0"])).
  - discriminate.
  - reflexivity.
Defined.

Lemma Logout_ends_session_witness :
  exists c1,
    Logout (Demo.request "")
      (Scenario.session "org/ada" [Demo.member "ada" "0"])
    = Returned c1 /\
    (exists c2,
        @GetUserinfo Demo.plain (Demo.request "") c1 = Returned c2 /\
        answered_only c1 c2 (error_response "Please sign in first" [])) /\
    (exists c2,
        @GetAccount Demo.plain Scenario.accounts (Demo.request "") c1
        = Refused c2 /\
        answered_only c1 c2 (error_response "Please sign in first" [])) /\
    (exists c2,
        Logout (Demo.request "") c1 = Returned c2 /\
        output c2 = (output c1 ++ [Some (ok_response [anyString ""])])%list).
Proof.
  eexists. split; [reflexivity |].
  apply (@Logout_ends_session Demo.plain Scenario.accounts
           (Demo.request "") (Demo.request "")
           (Scenario.session "org/ada" [Demo.member "ada" "0"])).
  reflexivity.
Defined.

(* ===================================================================== *)
(** * Identifiers as decimal strings *)
(* ===================================================================== *)

(** X17.  The decimal string [strconv.Itoa] writes for an [int] is read
    back by [util.ParseInt] as that [int]; hence two different values
    never get the same identifier. *)
Theorem ParseInt_Itoa (i j : Z) :
  strconv.in_int i = true ->
  strconv.in_int j = true ->
  ParseInt (strconv.Itoa i) = Some i /\
  (strconv.Itoa i = strconv.Itoa j -> i = j).
Proof.
  intros Hi Hj. unfold ParseInt. split; [apply Atoi_Itoa, Hi |].
  intros Heq. pose proof (Atoi_Itoa i Hi) as Hri.
  rewrite Heq, (Atoi_Itoa j Hj) in Hri. congruence.
Qed.

Lemma ParseInt_Itoa_witness :
  ParseInt (strconv.Itoa (-9223372036854775808)) = Some (-9223372036854775808)
  /\
  (strconv.Itoa (-9223372036854775808) = strconv.Itoa 9223372036854775807 ->
   -9223372036854775808 = 9223372036854775807).
Proof.
  apply (ParseInt_Itoa (-9223372036854775808) 9223372036854775807);
    reflexivity.
Defined.
